(** * broker.hosts: the [Host] class

    A shallow embedding of [src/broker/hosts.py] and the properties of its
    specification.

    A [Host] instance is its attribute dictionary ([__dict__]), a finite map
    from attribute names to Python values.  Methods are computations in a
    state-and-exception monad over a [world] that holds the module global
    [SETTINGS_VALIDATED], the instance under consideration and the trace of
    the calls made to external collaborators (settings validation, session
    constructors, [run], [disconnect]).  A raised exception keeps the
    mutations made before it, as in Python. *)

From Stdlib Require Import ZArith String List Bool Lia.
From stdpp Require Import base option strings gmap list.

Local Open Scope string_scope.
Local Open Scope Z_scope.
Local Open Scope list_scope.

(** ** Python values *)

Module Py.

(** The two session variants of [broker.session]. *)
Inductive backend : Type :=
| ContainerBackend
| SshBackend.

(** A session object: its identity and its variant. *)
Record session : Type := Session {
  sess_id : nat;
  sess_backend : backend;
}.

#[local] Set Warnings "-register-all".
Inductive value : Type :=
| VNone
| VBool (b : bool)
| VInt (n : Z)
| VStr (s : string)
| VList (l : list value)
| VDict (d : list (value * value))
| VObj (cls : string) (fields : list (string * value))
| VSession (s : session).

Inductive exn : Type :=
| HostError (msg : string)
| AttributeError (attr : string)
| TypeError (msg : string)
| ExternalError (msg : string).

Inductive result (A : Type) : Type :=
| Ok (a : A)
| Raise (e : exn).
Arguments Ok {A} a.
Arguments Raise {A} e.

(** [bool(v)]: objects of the collaborating classes have the default
    truth value [True]. *)
Definition truthy (v : value) : bool :=
  match v with
  | VNone => false
  | VBool b => b
  | VInt n => negb (n =? 0)
  | VStr s => negb (String.eqb s "")
  | VList l => match l with [] => false | _ => true end
  | VDict d => match d with [] => false | _ => true end
  | VObj _ _ => true
  | VSession _ => true
  end.

(** [v is None] *)
Definition is_None (v : value) : bool :=
  match v with VNone => true | _ => false end.

(** [a or b] *)
Definition py_or (a b : value) : value := if truthy a then a else b.

(** Equality of dictionary keys (hashable atoms; [True == 1]). *)
Definition key_eqb (a b : value) : bool :=
  match a, b with
  | VNone, VNone => true
  | VStr s, VStr t => String.eqb s t
  | VInt n, VInt m => n =? m
  | VBool x, VBool y => Bool.eqb x y
  | VBool x, VInt m => Z.b2z x =? m
  | VInt n, VBool y => n =? Z.b2z y
  | _, _ => false
  end.

Fixpoint assoc_get (d : list (value * value)) (k : value) : option value :=
  match d with
  | [] => None
  | (k', v) :: d' => if key_eqb k' k then Some v else assoc_get d' k
  end.

Fixpoint field_get (fs : list (string * value)) (k : string) : option value :=
  match fs with
  | [] => None
  | (k', v) :: fs' => if String.eqb k' k then Some v else field_get fs' k
  end.

(** [o.k] on a value other than the Host itself. *)
Definition obj_getattr (o : value) (k : string) : result value :=
  match o with
  | VObj _ fs =>
      match field_get fs k with
      | Some v => Ok v
      | None => Raise (AttributeError k)
      end
  | _ => Raise (AttributeError k)
  end.

(** [o.get(k, default)]; mappings are the dict-like values. *)
Definition dict_get (o : value) (k : value) (default : value) : result value :=
  match o with
  | VDict d =>
      match assoc_get d k with
      | Some v => Ok v
      | None => Ok default
      end
  | _ => Raise (AttributeError "get")
  end.

(** [needle in hay] on strings *)
Fixpoint str_in (needle hay : string) : bool :=
  String.prefix needle hay
  || match hay with
     | EmptyString => false
     | String _ rest => str_in needle rest
     end.

(** [needle in v] for a string [needle]: substring test on a string,
    membership in a list, key membership in a dict; a plain object is not
    iterable. *)
Definition py_contains (needle : string) (v : value) : result bool :=
  match v with
  | VStr s => Ok (str_in needle s)
  | VList l => Ok (existsb (key_eqb (VStr needle)) l)
  | VDict d => Ok (existsb (fun kv => key_eqb kv.1 (VStr needle)) d)
  | _ => Raise (TypeError "argument is not iterable")
  end.

End Py.

(** ** The module [broker.hosts] *)

Module Hosts.
Import Py.

(** Calls to the external collaborators, in the order they are made. *)
Inductive event : Type :=
| EvValidate
| EvContainerSession (s : session) (runtime : value) (settings_obj : option value)
| EvMakeSession (s : session) (args : list (string * value))
| EvRun (s : session) (command : string) (timeout : value)
| EvDisconnect (s : session).

(** The collaborators that live outside [hosts.py]: the settings object
    ([broker.settings]), the session classes ([broker.session]) and the
    interpreter's [str]. *)
Record Env : Type := {
  (* settings.SSH.<KEY> *)
  settings_SSH : string -> value;
  (* the exception raised by settings.validators.validate(only="SSH"), if any *)
  validate_SSH : option exn;
  (* str(v) *)
  py_str : value -> string;
  (* the exception raised by make_session on these keyword arguments, if any *)
  make_session_error : list (string * value) -> option exn;
  (* session.run(command, timeout=timeout), given the calls made so far *)
  session_run : list event -> session -> string -> value -> result value;
  (* the exception raised by session.disconnect(), if any *)
  session_disconnect : list event -> session -> option exn;
}.

Record world : Type := World {
  SETTINGS_VALIDATED : bool;
  trace : list event;
  self : gmap string value;
}.

Definition M (A : Type) : Type := world -> result A * world.

#[global] Instance M_ret : MRet M := fun A (a : A) w => (Ok a, w).
#[global] Instance M_bind : MBind M := fun A B (f : A -> M B) (m : M A) w =>
  match m w with
  | (Ok a, w') => f a w'
  | (Raise e, w') => (Raise e, w')
  end.

Definition raise {A : Type} (e : exn) : M A := fun w => (Raise e, w).

Definition lift {A : Type} (r : result A) : M A := fun w => (r, w).

Definition emit (e : event) : M unit := fun w =>
  (Ok tt, World (SETTINGS_VALIDATED w) (trace w ++ [e]) (self w)).

Definition history : M (list event) := fun w => (Ok (trace w), w).

Definition read_SETTINGS_VALIDATED : M bool := fun w =>
  (Ok (SETTINGS_VALIDATED w), w).

Definition write_SETTINGS_VALIDATED (b : bool) : M unit := fun w =>
  (Ok tt, World b (trace w) (self w)).

(** Computations that leave the world as it is. *)
Definition reader {A : Type} (m : M A) : Prop := forall w, (m w).2 = w.

(** ** Attribute access on the instance *)

(** Data attributes of the class [Host]. *)
Definition class_attrs : gmap string value :=
  {[ "default_timeout" := VInt 0 ]}.

(** [self.k] for a name other than the property [session]: the instance
    dictionary, then the class. *)
Definition lookup_attr (d : gmap string value) (k : string) : option value :=
  match d !! k with
  | Some v => Some v
  | None => class_attrs !! k
  end.

Definition load (k : string) : M value := fun w =>
  match lookup_attr (self w) k with
  | Some v => (Ok v, w)
  | None => (Raise (AttributeError k), w)
  end.

(** [getattr(self, k, d)] *)
Definition getattr_default (k : string) (d : value) : M value := fun w =>
  (Ok (default d (lookup_attr (self w) k)), w).

(** [hasattr(self, k)] *)
Definition hasattr (k : string) : M bool := fun w =>
  (Ok (match lookup_attr (self w) k with Some _ => true | None => false end), w).

(** [self.k = v] for a name other than [session]. *)
Definition store (k : string) (v : value) : M unit := fun w =>
  (Ok tt, World (SETTINGS_VALIDATED w) (trace w) (<[k := v]> (self w))).

(** [setattr(self, k, v)] and [self.k = v]: the class defines [session] as a
    property with a getter only, so that assigning to it raises. *)
Definition py_setattr (k : string) (v : value) : M unit :=
  if String.eqb k "session" then raise (AttributeError "session") else store k v.

(** [self.__dict__] *)
Definition instance_dict : M (gmap string value) := fun w => (Ok (self w), w).

(** [self.__dict__.update(kwargs)] *)
Definition update_dict (kwargs : gmap string value) : M unit := fun w =>
  (Ok tt, World (SETTINGS_VALIDATED w) (trace w) (kwargs ∪ self w)).

(** A new, empty instance. *)
Definition new_instance : M unit := fun w =>
  (Ok tt, World (SETTINGS_VALIDATED w) (trace w) ∅).

(** [kwargs.get(k)] and [kwargs.pop(k, d)] *)
Definition kwargs_get (kwargs : gmap string value) (k : string) : value :=
  default VNone (kwargs !! k).

Definition kwargs_pop (kwargs : gmap string value) (k : string) (d : value)
  : value * gmap string value :=
  (default d (kwargs !! k), delete k kwargs).

Section Host.
Context (E : Env).

(** ** Construction *)

Definition validate_settings : M unit :=
  emit EvValidate ;;
  match validate_SSH E with
  | Some e => raise e
  | None => mret tt
  end.

(** Modelled from the spec: [broker.exceptions.HostError] is not part of the
    sources.  A fatal error carries the hostname of the host it concerns
    (section 7): the constructor takes the host as its first argument and
    the message as its second, and for a truthy host it reads
    [host.hostname], or [host.name] when that is falsy, to build the
    message.  Without a host no message is set, and reading it raises. *)
Definition HostError_new (host : value) (message : string) : result exn :=
  if truthy host then
    match obj_getattr host "hostname" with
    | Raise e => Raise e
    | Ok hostname =>
        if truthy hostname
        then Ok (HostError (py_str E hostname +:+ ": " +:+ message))
        else match obj_getattr host "name" with
             | Raise e => Raise e
             | Ok name => Ok (HostError (py_str E name +:+ ": " +:+ message))
             end
    end
  else Raise (AttributeError "message").

(** [raise exc], where evaluating the expression [exc] can itself raise. *)
Definition raise_new {A : Type} (exc : result exn) : M A :=
  match exc with
  | Ok e => raise e
  | Raise e => raise e
  end.

(** [Host.__init__(self, **kwargs)], on the keyword arguments as it receives
    them; [stack] lists the functions of the
    frames that called it, innermost first, so that [inspect.stack()] is
    [__init__] followed by [stack]. *)
Definition Host_init (stack : list string) (kwargs : gmap string value) : M unit :=
  validated ← read_SETTINGS_VALIDATED;
  (if validated : bool then mret tt
   else validate_settings ;; write_SETTINGS_VALIDATED true) ;;
  store "hostname" (py_or (kwargs_get kwargs "hostname") (kwargs_get kwargs "ip")) ;;
  hostname ← load "hostname";
  (if truthy hostname then mret tt
   else if existsb (String.eqb "reconstruct_host") ("__init__" :: stack) then mret tt
   else raise_new
          (HostError_new (VStr "Host must be constructed with a hostname or ip")
                         "Unspecified exception")) ;;
  let '(name, kwargs) := kwargs_pop kwargs "name" VNone in
  store "name" name ;;
  let '(username, kwargs) :=
    kwargs_pop kwargs "username" (settings_SSH E "HOST_USERNAME") in
  store "username" username ;;
  let '(password, kwargs) :=
    kwargs_pop kwargs "password" (settings_SSH E "HOST_PASSWORD") in
  store "password" password ;;
  let '(timeout, kwargs) :=
    kwargs_pop kwargs "connection_timeout" (settings_SSH E "HOST_CONNECTION_TIMEOUT") in
  store "timeout" timeout ;;
  let '(port, kwargs) :=
    kwargs_pop kwargs "port" (settings_SSH E "HOST_SSH_PORT") in
  store "port" port ;;
  let '(key_filename, kwargs) :=
    kwargs_pop kwargs "key_filename" (settings_SSH E "HOST_SSH_KEY_FILENAME") in
  store "key_filename" key_filename ;;
  let '(ipv6, kwargs) :=
    kwargs_pop kwargs "ipv6" (settings_SSH E "HOST_IPV6") in
  store "ipv6" ipv6 ;;
  let '(ipv4_fallback, kwargs) :=
    kwargs_pop kwargs "ipv4_fallback" (settings_SSH E "HOST_IPV4_FALLBACK") in
  store "ipv4_fallback" ipv4_fallback ;;
  update_dict kwargs ;;
  store "_session" VNone.

(** The call [Host] with keyword arguments [kwargs]: a new instance,
    initialised by [__init__]. *)
Definition new_Host (stack : list string) (kwargs : gmap string value) : M unit :=
  new_instance ;; Host_init stack kwargs.

(** ** Sessions *)

(** Modelled from the spec: [broker.session.ContainerSession] is not part of
    the sources.  The container-backed variant works against a container
    runtime instead of a network transport; constructing it yields a new
    session object bound to the host and opens nothing. *)
Definition ContainerSession (runtime : value) (settings_obj : option value)
  : M value :=
  h ← history;
  let s := Session (length h) ContainerBackend in
  emit (EvContainerSession s runtime settings_obj) ;;
  mret (VSession s).

(** Modelled from the spec: [broker.session.make_session] is not part of the
    sources.  It resolves the configured SSH-backed session and opens a
    transport to the host, which can fail with a transport error. *)
Definition make_session (args : list (string * value)) : M value :=
  h ← history;
  let s := Session (length h) SshBackend in
  emit (EvMakeSession s args) ;;
  match make_session_error E args with
  | Some e => raise e
  | None => mret (VSession s)
  end.

(** [for key, val in kwargs.items(): setattr(self, key, val)] *)
Fixpoint setattrs (kwargs : list (string * value)) : M unit :=
  match kwargs with
  | [] => mret tt
  | (k, v) :: rest => py_setattr k v ;; setattrs rest
  end.

(** [self._settings.get("SSH", {}).get(key, fallback)], where the expression
    [fallback] is evaluated after the first [get]. *)
Definition settings_default (key : string) (fallback : M value) : M value :=
  s ← load "_settings";
  ssh ← lift (dict_get s (VStr "SSH") (VDict []));
  d ← fallback;
  lift (dict_get ssh (VStr key) d).

(** The keyword arguments that [connect] passes to [make_session], evaluated
    from left to right; the log message before them reads [self.hostname]. *)
Definition ssh_session_args : M (list (string * value)) :=
  _ ← load "hostname";
  settings_obj ← load "_settings";
  hostname ← load "hostname";
  port ← (d ← settings_default "HOST_SSH_PORT" (mret (VInt 22));
          getattr_default "port" d);
  username ← (d ← settings_default "HOST_USERNAME" (load "DEFAULT_USER");
              getattr_default "user" d);
  password ← (d ← settings_default "HOST_PASSWORD" (mret VNone);
              getattr_default "password" d);
  key_filename ← (d ← settings_default "HOST_SSH_KEY_FILENAME" (mret VNone);
                  getattr_default "key_filename" d);
  timeout ← (d ← settings_default "HOST_CONNECTION_TIMEOUT" (mret (VInt 60));
             getattr_default "timeout" d);
  host ← load "hostname";
  mret [("settings_obj", settings_obj); ("hostname", hostname);
        ("port", port); ("username", username); ("password", password);
        ("key_filename", key_filename); ("timeout", timeout);
        ("host", host)].

(** The test of [connect]:
    [getattr(self, "is_container", None) or getattr(self, "_cont_inst", None)] *)
Definition container_linked : M bool :=
  is_container ← getattr_default "is_container" VNone;
  cont_inst ← getattr_default "_cont_inst" VNone;
  mret (truthy (py_or is_container cont_inst)).

(** [Host.connect(self, kwargs)] with keyword arguments [kwargs], in the
    order given.  Both branches end in the assignment [self.session = ...]. *)
Definition connect (kwargs : list (string * value)) : M unit :=
  setattrs kwargs ;;
  linked ← container_linked;
  if linked : bool then
    let runtime := default VNone (field_get kwargs "runtime") in
    settings_obj ← load "_settings";
    sess ← ContainerSession runtime (Some settings_obj);
    py_setattr "session" sess
  else
    args ← ssh_session_args;
    sess ← make_session args;
    py_setattr "session" sess.

(** The test of the session getter:
    [hasattr(self, "_cont_inst") and not self._cont_inst.ports.get(22)] *)
Definition non_ssh_container : M bool :=
  has ← hasattr "_cont_inst";
  if has : bool then
    ci ← load "_cont_inst";
    ports ← lift (obj_getattr ci "ports");
    p ← lift (dict_get ports (VInt 22) VNone);
    mret (negb (truthy p))
  else mret false.

(** The getter of the property [Host.session]. *)
Definition session_get : M value :=
  s ← load "_session";
  if is_None s then
    portless ← non_ssh_container;
    (if portless : bool then
       ci ← load "_cont_inst";
       client ← lift (obj_getattr ci "client");
       let runtime :=
         if str_in "podman" (py_str E client) then "podman" else "docker" in
       sess ← ContainerSession (VStr runtime) None;
       store "_session" sess
     else connect []) ;;
    load "_session"
  else mret s.

(** [v.disconnect()] *)
Definition call_disconnect (v : value) : M unit :=
  match v with
  | VSession s =>
      h ← history;
      emit (EvDisconnect s) ;;
      match session_disconnect E h s with
      | Some e => raise e
      | None => mret tt
      end
  | _ => raise (AttributeError "disconnect")
  end.

(** [v.run(command, timeout=timeout)] *)
Definition call_run (v : value) (command : string) (timeout : value) : M value :=
  match v with
  | VSession s =>
      h ← history;
      emit (EvRun s command timeout) ;;
      lift (session_run E h s command timeout)
  | _ => raise (AttributeError "run")
  end.

(** [Host.close(self)] *)
Definition close : M unit :=
  s ← load "_session";
  (if is_None s then mret tt else call_disconnect s) ;;
  store "_session" VNone.

(** [Host.__del__(self)]:
    [if hasattr(self, "_session") and self._session is not None: self.close()] *)
Definition Host_del : M unit :=
  has ← hasattr "_session";
  if has : bool then
    s ← load "_session";
    if is_None s then mret tt else close
  else mret tt.

(** [Host.execute(self, command, timeout=None)]; the two log messages read
    [self.hostname]. *)
Definition execute (command : string) (timeout : value) : M value :=
  timeout ← (if is_None timeout then load "default_timeout" else mret timeout);
  _ ← load "hostname";
  sess ← session_get;
  res ← call_run sess command timeout;
  _ ← load "hostname";
  mret res.

(** The loop of [Host._pkg_mgr] over the candidates. *)
Fixpoint pkg_mgr_loop (candidates : list string) : M value :=
  match candidates with
  | [] => mret VNone
  | mgr :: rest =>
      out ← execute ("which " +:+ mgr) VNone;
      found ← lift (py_contains ("no " +:+ mgr +:+ " in") out);
      if found : bool then mret (VStr mgr) else pkg_mgr_loop rest
  end.

(** [Host._pkg_mgr(self)] *)
Definition _pkg_mgr : M value := pkg_mgr_loop ["yum"; "dnf"; "zypper"].

(** ** Serialisation *)

Definition keep_keys : list string :=
  ["hostname"; "_broker_provider"; "_broker_args"; "tower_inventory";
   "deploy_network_type"; "job_id"; "_attrs"; "ip"; "os_distribution";
   "os_distribution_version"; "reported_devices"; "exposed_ports"].

(** [Host.to_dict(self)] *)
Definition to_dict : M (gmap string value) :=
  name ← getattr_default "name" VNone;
  prov_inst ← load "_prov_inst";
  instance ← lift (obj_getattr prov_inst "instance");
  let ret_dict : gmap string value :=
    {[ "name" := name;
       "_broker_provider_instance" := instance;
       "type" := VStr "host" ]} in
  d ← instance_dict;
  mret (filter (fun kv => kv.1 ∈ keep_keys) d ∪ ret_dict).

(** [Host.from_dict(arg_dict)], a class method: it calls [cls] with the
    entries of [arg_dict] and [from_dict=True] as keyword arguments.  A
    keyword given twice is a [TypeError], and so is an entry [self], which
    collides with the first parameter of [__init__]. *)
Definition from_dict (stack : list string) (arg_dict : gmap string value) : M unit :=
  match arg_dict !! "from_dict" with
  | Some _ => raise (TypeError "multiple values for keyword argument 'from_dict'")
  | None =>
      match arg_dict !! "self" with
      | Some _ => raise (TypeError "multiple values for argument 'self'")
      | None =>
          new_Host ("from_dict" :: stack) (<["from_dict" := VBool true]> arg_dict)
      end
  end.

(** ** Auxiliary notions used to state the properties *)

(** A frame of function [f] is on the call stack. *)
Definition has_frame (f : string) (stack : list string) : bool :=
  existsb (String.eqb f) stack.

(** The identity computed by the constructor:
    [kwargs.get("hostname") or kwargs.get("ip")]. *)
Definition identity (kwargs : gmap string value) : value :=
  py_or (kwargs_get kwargs "hostname") (kwargs_get kwargs "ip").

(** The keywords that the constructor pops from [kwargs]. *)
Definition popped_keys : list string :=
  ["name"; "username"; "password"; "connection_timeout"; "port";
   "key_filename"; "ipv6"; "ipv4_fallback"].

(** The attributes that the constructor sets itself. *)
Definition core_attrs : list string :=
  ["hostname"; "name"; "username"; "password"; "timeout"; "port";
   "key_filename"; "ipv6"; "ipv4_fallback"; "_session"].

(** The instance dictionary that a successful [__init__] leaves, starting
    from the dictionary [base]. *)
Definition init_dict (kwargs base : gmap string value) : gmap string value :=
  <["_session" := VNone]>
    (foldl (fun m k => delete k m) kwargs popped_keys ∪
     <["ipv4_fallback" :=
         default (settings_SSH E "HOST_IPV4_FALLBACK") (kwargs !! "ipv4_fallback")]>
     (<["ipv6" := default (settings_SSH E "HOST_IPV6") (kwargs !! "ipv6")]>
     (<["key_filename" :=
          default (settings_SSH E "HOST_SSH_KEY_FILENAME") (kwargs !! "key_filename")]>
     (<["port" := default (settings_SSH E "HOST_SSH_PORT") (kwargs !! "port")]>
     (<["timeout" :=
          default (settings_SSH E "HOST_CONNECTION_TIMEOUT")
                  (kwargs !! "connection_timeout")]>
     (<["password" := default (settings_SSH E "HOST_PASSWORD") (kwargs !! "password")]>
     (<["username" := default (settings_SSH E "HOST_USERNAME") (kwargs !! "username")]>
     (<["name" := default VNone (kwargs !! "name")]>
     (<["hostname" := identity kwargs]> base))))))))).

(** The call that the validation gate makes, if any. *)
Definition gate_events (validated : bool) : list event :=
  if validated then [] else [EvValidate].

(** The number of validation runs in a trace. *)
Definition is_validate (e : event) : bool :=
  match e with EvValidate => true | _ => false end.

Definition validations (t : list event) : nat :=
  length (List.filter is_validate t).

(** A sequence of constructor calls, each given by its call stack and its
    keyword arguments, whatever the outcome of each. *)
Fixpoint construct_all (calls : list (list string * gmap string value))
    (w : world) : world :=
  match calls with
  | [] => w
  | (stack, kwargs) :: rest => construct_all rest (new_Host stack kwargs w).2
  end.

(** The keys of the serialised record. *)
Definition allow_list : list string :=
  ["name"; "_broker_provider_instance"; "type"] ++ keep_keys.

(** The instance holds a provider link: an attribute [_prov_inst] whose
    value has an attribute [instance]. *)
Definition has_provider_link (d : gmap string value) : bool :=
  match lookup_attr d "_prov_inst" with
  | Some (VObj _ fields) =>
      match field_get fields "instance" with
      | Some _ => true
      | None => false
      end
  | _ => false
  end.

(** The value of the test of [connect] on an instance dictionary. *)
Definition is_container_linked (d : gmap string value) : bool :=
  truthy (py_or (default VNone (lookup_attr d "is_container"))
                (default VNone (lookup_attr d "_cont_inst"))).

(** The calls that [connect] makes to the session constructors: at most one,
    to the container-backed constructor if the instance is container linked
    and to [make_session] if it is not. *)
Inductive connect_events (linked : bool) (n : nat) : list event -> Prop :=
| connect_no_call : connect_events linked n []
| connect_container runtime settings_obj :
    linked = true ->
    connect_events linked n
      [EvContainerSession (Session n ContainerBackend) runtime settings_obj]
| connect_ssh args :
    linked = false ->
    connect_events linked n [EvMakeSession (Session n SshBackend) args].

(** The Host's configured default timeout: the instance attribute, or the
    class attribute [default_timeout = 0]. *)
Definition configured_default_timeout (d : gmap string value) : value :=
  default (VInt 0) (d !! "default_timeout").

(** The container runtime that the session getter derives from the client. *)
Definition runtime_of (client : value) : string :=
  if str_in "podman" (py_str E client) then "podman" else "docker".

End Host.

(** ** Concrete collaborators and hosts, for the examples *)

(** A process in which no Host was constructed yet. *)
Definition fresh_process : world := World false [] ∅.

(** The output of [which] on a machine that has [yum] and neither [dnf] nor
    [zypper]. *)
Definition which_on_yum_machine (command : string) : value :=
  if String.eqb command "which yum" then VStr "/usr/bin/yum"
  else if String.eqb command "which dnf"
       then VStr "/usr/bin/which: no dnf in (/usr/local/bin:/usr/bin)"
  else if String.eqb command "which zypper"
       then VStr "/usr/bin/which: no zypper in (/usr/local/bin:/usr/bin)"
  else VStr "".

(** Valid settings, sessions that open and close without error, and a
    machine with [yum] behind every session. *)
Definition example_env : Env := {|
  settings_SSH := fun key =>
    if String.eqb key "HOST_USERNAME" then VStr "root"
    else if String.eqb key "HOST_SSH_PORT" then VInt 22
    else if String.eqb key "HOST_CONNECTION_TIMEOUT" then VInt 60
    else if String.eqb key "HOST_IPV6" then VBool false
    else if String.eqb key "HOST_IPV4_FALLBACK" then VBool true
    else VNone;
  validate_SSH := None;
  py_str := fun v =>
    match v with
    | VStr s => s
    | VObj cls _ => "<" +:+ cls +:+ " object>"
    | _ => ""
    end;
  make_session_error := fun _ => None;
  session_run := fun _ _ command _ => Ok (which_on_yum_machine command);
  session_disconnect := fun _ _ => None;
|}.

(** A provider link, and container instances with and without a mapping
    for port 22. *)
Definition example_provider : value :=
  VObj "Provider" [("instance", VStr "i-0042")].

Definition container_without_ssh : value :=
  VObj "Container" [("ports", VDict []); ("client", VObj "PodmanClient" [])].

Definition container_with_ssh : value :=
  VObj "Container"
    [("ports", VDict [(VInt 22, VInt 2222)]); ("client", VObj "PodmanClient" [])].

(** [Host(hostname="h1")] *)
Definition kwargs_h1 : gmap string value := {[ "hostname" := VStr "h1" ]}.

(** [Host(hostname="h1", name="n1", _prov_inst=...)] *)
Definition kwargs_provided : gmap string value :=
  {[ "hostname" := VStr "h1"; "name" := VStr "n1";
     "_prov_inst" := example_provider ]}.

(** [Host(hostname="h1", _settings={}, DEFAULT_USER="root")], which has all
    that [connect] reads. *)
Definition kwargs_connectable : gmap string value :=
  {[ "hostname" := VStr "h1"; "_settings" := VDict [];
     "DEFAULT_USER" := VStr "root" ]}.

(** A host whose session is the attached SSH-backed session number 7. *)
Definition attached_session : session := Session 7 SshBackend.

Definition host_with_session : world :=
  World true [EvValidate]
    (<["_session" := VSession attached_session]>
       (init_dict example_env kwargs_h1 ∅)).

(** That host after [close]. *)
Definition closed_host : world :=
  World (SETTINGS_VALIDATED host_with_session)
    (trace host_with_session ++ [EvDisconnect attached_session])
    (<["_session" := VNone]> (self host_with_session)).

(** A host as the constructor leaves it, with the extension attributes
    [extra]. *)
Definition host_of (extra : gmap string value) : world :=
  World true [EvValidate] (init_dict example_env (extra ∪ kwargs_h1) ∅).

(** The host that [Host(hostname="h1", _settings={}, DEFAULT_USER="root")]
    constructs in a fresh process. *)
Definition connectable_host : world :=
  (new_Host example_env [] kwargs_connectable fresh_process).2.

(** A host constructed without identity inside [reconstruct_host], holding a
    provider link, and its serialised record. *)
Definition reconstructed_host : world :=
  (new_Host example_env ["reconstruct_host"]
     {[ "_prov_inst" := example_provider ]} fresh_process).2.

Definition reconstructed_record : gmap string value :=
  {[ "name" := VNone; "_broker_provider_instance" := VStr "i-0042";
     "type" := VStr "host"; "hostname" := VNone ]}.

(** A serialised record without hostname and ip. *)
Definition record_without_identity : gmap string value :=
  {[ "name" := VStr "n1"; "_broker_provider_instance" := VStr "i-0042";
     "type" := VStr "host" ]}.

(** The record that [to_dict] gives for the host constructed from
    [kwargs_provided]. *)
Definition provided_record : gmap string value :=
  {[ "name" := VStr "n1"; "_broker_provider_instance" := VStr "i-0042";
     "type" := VStr "host"; "hostname" := VStr "h1" ]}.

(** The host that [from_dict] builds from that record, called from a function
    [checkin]. *)
Definition round_trip_host : world :=
  (from_dict example_env ["checkin"] provided_record (host_of kwargs_provided)).2.

(** Container hosts: one without and one with a mapping for port 22. *)
Definition non_ssh_container_host : world :=
  host_of {[ "_cont_inst" := container_without_ssh; "_settings" := VDict [] ]}.

Definition ssh_enabled_container_host : world :=
  host_of {[ "_cont_inst" := container_with_ssh; "_settings" := VDict [] ]}.

(** Settings that fail validation. *)
Definition invalid_settings_env : Env := {|
  settings_SSH := settings_SSH example_env;
  validate_SSH := Some (ExternalError "ValidationError");
  py_str := py_str example_env;
  make_session_error := make_session_error example_env;
  session_run := session_run example_env;
  session_disconnect := session_disconnect example_env;
|}.

(** Sessions whose first [disconnect] fails with a transport error and whose
    later ones return. *)
Definition has_disconnect (t : list event) : bool :=
  existsb (fun e => match e with EvDisconnect _ => true | _ => false end) t.

Definition flaky_disconnect_env : Env := {|
  settings_SSH := settings_SSH example_env;
  validate_SSH := None;
  py_str := py_str example_env;
  make_session_error := make_session_error example_env;
  session_run := session_run example_env;
  session_disconnect := fun t _ =>
    if has_disconnect t then None else Some (ExternalError "transport");
|}.

(** [Host(ip="10.0.0.7", connection_timeout=5, job_id=17, _session=1)] *)
Definition kwargs_ip : gmap string value :=
  {[ "ip" := VStr "10.0.0.7"; "connection_timeout" := VInt 5;
     "job_id" := VInt 17; "_session" := VInt 1 ]}.

(** A trace holds a call of [run]. *)
Definition has_run (t : list event) : bool :=
  existsb (fun e => match e with EvRun _ _ _ => true | _ => false end) t.

(** * Properties *)

(** Membership in a list of literals, by evaluation. *)
Ltac by_decide := apply (bool_decide_unpack _); vm_compute; exact I.

(** Closed equations, by evaluation. *)
Ltac by_compute := vm_compute; reflexivity.

Section Facts.
Context (E : Env).

(** ** The monad *)

Lemma bind_run {A B} (m : M A) (f : A -> M B) w :
  (m ≫= f) w =
    match m w with
    | (Ok a, w') => f a w'
    | (Raise e, w') => (Raise e, w')
    end.
Proof. reflexivity. Qed.

Lemma reader_bind {A B} (m : M A) (f : A -> M B) :
  reader m → (∀ a, reader (f a)) → reader (m ≫= f).
Proof.
  intros Hm Hf w. rewrite bind_run. specialize (Hm w).
  destruct (m w) as [[a|e] w']; simpl in *; subst; [apply Hf | done].
Qed.

Lemma reader_ret {A} (a : A) : reader (mret a : M A).
Proof. done. Qed.

Lemma reader_load k : reader (load k).
Proof. intros w. unfold load. by destruct (lookup_attr _ _). Qed.

Lemma reader_getattr_default k d : reader (getattr_default k d).
Proof. done. Qed.

Lemma reader_hasattr k : reader (hasattr k).
Proof. done. Qed.

Lemma reader_lift {A} (r : result A) : reader (lift r).
Proof. done. Qed.

Ltac reader_tac :=
  repeat first
    [ apply reader_bind | apply reader_load | apply reader_lift
    | apply reader_ret | apply reader_getattr_default | apply reader_hasattr
    | assumption | intros ? ].

Lemma reader_settings_default key fallback :
  reader fallback → reader (settings_default key fallback).
Proof. intros. unfold settings_default. reader_tac. Qed.

Lemma reader_ssh_session_args : reader ssh_session_args.
Proof.
  unfold ssh_session_args.
  repeat first [ apply reader_settings_default | reader_tac ].
Qed.

Lemma reader_non_ssh_container : reader non_ssh_container.
Proof.
  unfold non_ssh_container. apply reader_bind; [apply reader_hasattr|].
  intros []; reader_tac.
Qed.

Lemma load_run k w :
  load k w =
    match lookup_attr (self w) k with
    | Some v => (Ok v, w)
    | None => (Raise (AttributeError k), w)
    end.
Proof. reflexivity. Qed.

Lemma lookup_attr_Some d k v : d !! k = Some v → lookup_attr d k = Some v.
Proof. unfold lookup_attr. by intros ->. Qed.

Lemma lookup_attr_instance d k :
  k ≠ "default_timeout" → lookup_attr d k = d !! k.
Proof.
  intros Hk. unfold lookup_attr, class_attrs. destruct (d !! k); [done|].
  by rewrite lookup_singleton_ne.
Qed.

Lemma world_eta w : World (SETTINGS_VALIDATED w) (trace w) (self w) = w.
Proof. by destruct w. Qed.

(** ** Construction *)

Lemma Host_init_run stack kwargs w :
  Host_init E stack kwargs w =
    match (if SETTINGS_VALIDATED w then None else validate_SSH E) with
    | Some e => (Raise e, World false (trace w ++ [EvValidate]) (self w))
    | None =>
        let tr := (trace w ++ gate_events (SETTINGS_VALIDATED w))%list in
        if truthy (identity kwargs) || has_frame "reconstruct_host" stack
        then (Ok tt, World true tr (init_dict E kwargs (self w)))
        else (Raise (AttributeError "hostname"),
              World true tr (<["hostname" := identity kwargs]> (self w)))
    end.
Proof.
  destruct w as [flag tr d]. unfold has_frame, init_dict, identity.
  unfold Host_init.
  change (HostError_new E (VStr "Host must be constructed with a hostname or ip")
            "Unspecified exception")
    with (Raise (AttributeError "hostname") : result exn).
  cbv [validate_settings mbind mret M_bind M_ret raise_new
       read_SETTINGS_VALIDATED write_SETTINGS_VALIDATED emit store load raise
       update_dict kwargs_pop SETTINGS_VALIDATED trace self gate_events
       lookup_attr popped_keys foldl].
  destruct flag; [|destruct (validate_SSH E) as [e|]]; try reflexivity;
    rewrite ?app_nil_r, lookup_insert_eq;
    (destruct (truthy _) eqn:Ht;
     [|cbn [existsb orb];
       change ("reconstruct_host" =? "__init__")%string with false;
       cbn [orb]; destruct (existsb _ stack)];
     cbn [orb]; try reflexivity;
     rewrite ?lookup_delete_ne by done; reflexivity).
Qed.

Lemma new_Host_run stack kwargs w :
  new_Host E stack kwargs w =
    match (if SETTINGS_VALIDATED w then None else validate_SSH E) with
    | Some e => (Raise e, World false (trace w ++ [EvValidate]) ∅)
    | None =>
        let tr := (trace w ++ gate_events (SETTINGS_VALIDATED w))%list in
        if truthy (identity kwargs) || has_frame "reconstruct_host" stack
        then (Ok tt, World true tr (init_dict E kwargs ∅))
        else (Raise (AttributeError "hostname"),
              World true tr {[ "hostname" := identity kwargs ]})
    end.
Proof.
  unfold new_Host. rewrite bind_run. cbn [new_instance].
  rewrite Host_init_run. destruct w as [[] tr d]; reflexivity.
Qed.

(** The validation gate alone decides the trace and the flag. *)
Lemma new_Host_trace stack kwargs w :
  trace (new_Host E stack kwargs w).2 =
    (trace w ++ gate_events (SETTINGS_VALIDATED w))%list.
Proof.
  rewrite new_Host_run. destruct w as [[] tr d]; cbn.
  - by destruct (_ || _).
  - destruct (validate_SSH E); [done|]. by destruct (_ || _).
Qed.

Lemma new_Host_validated stack kwargs w :
  SETTINGS_VALIDATED w = true →
  SETTINGS_VALIDATED (new_Host E stack kwargs w).2 = true.
Proof.
  intros Hw. rewrite new_Host_run, Hw. by destruct (_ || _).
Qed.

Lemma new_Host_validates stack kwargs w :
  validate_SSH E = None →
  SETTINGS_VALIDATED (new_Host E stack kwargs w).2 = true.
Proof.
  intros Hv. rewrite new_Host_run, Hv.
  destruct (SETTINGS_VALIDATED w); by destruct (_ || _).
Qed.

Lemma validations_app t1 t2 :
  validations (t1 ++ t2) = (validations t1 + validations t2)%nat.
Proof. unfold validations. by rewrite List.filter_app, length_app. Qed.

Lemma construct_all_validated calls w :
  SETTINGS_VALIDATED w = true →
  SETTINGS_VALIDATED (construct_all E calls w) = true
  ∧ trace (construct_all E calls w) = trace w.
Proof.
  revert w. induction calls as [|[stack kwargs] calls IH]; intros w Hw; [done|].
  cbn [construct_all].
  destruct (IH (new_Host E stack kwargs w).2) as [IH1 IH2].
  { by apply new_Host_validated. }
  split; [done|]. rewrite IH2, new_Host_trace, Hw. apply app_nil_r.
Qed.

(** After a successful construction *)
Lemma init_dict_session kwargs base : init_dict E kwargs base !! "_session" = Some VNone.
Proof. apply lookup_insert_eq. Qed.

Lemma popped_lookup_ne (kwargs : gmap string value) k :
  k ∉ popped_keys →
  foldl (fun m k => delete k m) kwargs popped_keys !! k = kwargs !! k.
Proof.
  unfold popped_keys. intros Hk. cbn [foldl].
  rewrite !lookup_delete_ne; [done|..]; intros Heq; apply Hk; rewrite <- Heq; by_decide.
Qed.

Lemma init_dict_hostname kwargs base :
  init_dict E kwargs base !! "hostname" =
    Some (default (identity kwargs) (kwargs !! "hostname")).
Proof.
  unfold init_dict. rewrite lookup_insert_ne by done.
  rewrite lookup_union, popped_lookup_ne by by_decide.
  rewrite !lookup_insert_ne by done. rewrite lookup_insert_eq.
  by destruct (kwargs !! "hostname").
Qed.

Lemma popped_lookup_name (kwargs : gmap string value) :
  foldl (fun m k => delete k m) kwargs popped_keys !! "name" = None.
Proof.
  unfold popped_keys. cbn [foldl].
  rewrite !lookup_delete_ne by done. apply lookup_delete_eq.
Qed.

Lemma init_dict_name kwargs base :
  init_dict E kwargs base !! "name" = Some (default VNone (kwargs !! "name")).
Proof.
  unfold init_dict. rewrite lookup_insert_ne by done.
  rewrite lookup_union, popped_lookup_name.
  rewrite !lookup_insert_ne by done. by rewrite lookup_insert_eq.
Qed.

Lemma init_dict_extension kwargs k :
  k ∉ popped_keys → k ∉ core_attrs →
  init_dict E kwargs ∅ !! k = kwargs !! k.
Proof.
  intros Hp Hk. unfold init_dict.
  rewrite lookup_insert_ne by (intros Heq; apply Hk; rewrite <- Heq; by_decide).
  rewrite lookup_union, popped_lookup_ne by done.
  rewrite !lookup_insert_ne by (intros Heq; apply Hk; rewrite <- Heq; by_decide).
  rewrite lookup_empty. by destruct (kwargs !! k).
Qed.

(** ** Connecting *)

Lemma container_linked_run w :
  container_linked w = (Ok (is_container_linked (self w)), w).
Proof. reflexivity. Qed.

Lemma ContainerSession_run runtime settings_obj w :
  ContainerSession runtime settings_obj w =
    let s := Session (length (trace w)) ContainerBackend in
    (Ok (VSession s),
     World (SETTINGS_VALIDATED w)
           (trace w ++ [EvContainerSession s runtime settings_obj]) (self w)).
Proof. reflexivity. Qed.

Lemma make_session_run args w :
  make_session E args w =
    let s := Session (length (trace w)) SshBackend in
    let w' := World (SETTINGS_VALIDATED w)
                    (trace w ++ [EvMakeSession s args]) (self w) in
    match make_session_error E args with
    | Some e => (Raise e, w')
    | None => (Ok (VSession s), w')
    end.
Proof.
  unfold make_session. rewrite !bind_run. cbn.
  by destruct (make_session_error E args).
Qed.

(** [connect] without overrides never returns: it raises, leaves the
    instance as it was and calls at most one session constructor. *)
Lemma connect_nil_run w :
  ∃ e evs,
    connect E [] w =
      (Raise e, World (SETTINGS_VALIDATED w) (trace w ++ evs) (self w))
    ∧ connect_events (is_container_linked (self w)) (length (trace w)) evs.
Proof.
  unfold connect. cbn [setattrs]. rewrite bind_run. cbn [mret M_ret].
  rewrite bind_run, container_linked_run.
  destruct (is_container_linked (self w)) eqn:Hl.
  - rewrite bind_run, load_run.
    destruct (lookup_attr (self w) "_settings") as [so|].
    + rewrite bind_run, ContainerSession_run. cbn.
      eexists _, [_]. split; [reflexivity|]. by constructor.
    + exists (AttributeError "_settings"), []. rewrite app_nil_r, world_eta.
      split; [done|constructor].
  - rewrite bind_run. pose proof (reader_ssh_session_args w) as Hr.
    destruct (ssh_session_args w) as [[args|e] w1]; cbn in Hr; subst w1.
    + rewrite bind_run, make_session_run.
      destruct (make_session_error E args) as [e|]; cbn;
        eexists _, [_]; (split; [reflexivity|by constructor]).
    + exists e, []. rewrite app_nil_r, world_eta. split; [done|constructor].
Qed.

(** With overrides too, [connect] raises. *)
Lemma connect_raises kwargs w : ∃ e, (connect E kwargs w).1 = Raise e.
Proof.
  unfold connect. rewrite bind_run.
  destruct (setattrs kwargs w) as [[[]|e] w1]; [|by eexists].
  rewrite bind_run, container_linked_run.
  destruct (is_container_linked (self w1)).
  - rewrite bind_run. destruct (load "_settings" w1) as [[so|e] w3]; [|by eexists].
    rewrite bind_run. by eexists.
  - rewrite bind_run. destruct (ssh_session_args w1) as [[args|e] w3]; [|by eexists].
    rewrite bind_run, make_session_run.
    destruct (make_session_error E args); by eexists.
Qed.

(** The calls of [connect] without overrides on a container-linked host. *)
Lemma connect_nil_linked w :
  is_container_linked (self w) = true →
  connect E [] w =
    match self w !! "_settings" with
    | Some settings_obj =>
        (Raise (AttributeError "session"),
         World (SETTINGS_VALIDATED w)
               (trace w ++
                [EvContainerSession (Session (length (trace w)) ContainerBackend)
                   VNone (Some settings_obj)])
               (self w))
    | None => (Raise (AttributeError "_settings"), w)
    end.
Proof.
  intros Hl. unfold connect. cbn [setattrs]. rewrite bind_run. cbn [mret M_ret].
  rewrite bind_run, container_linked_run, Hl.
  rewrite bind_run, load_run, lookup_attr_instance by done.
  destruct (self w !! "_settings") as [so|]; [|done].
  by rewrite bind_run, ContainerSession_run.
Qed.

(** The calls of [connect] without overrides on a host that is not. *)
Lemma connect_nil_unlinked w :
  is_container_linked (self w) = false →
  connect E [] w =
    match (ssh_session_args w).1 with
    | Ok args =>
        (match make_session_error E args with
         | Some e => Raise e
         | None => Raise (AttributeError "session")
         end,
         World (SETTINGS_VALIDATED w)
               (trace w ++
                [EvMakeSession (Session (length (trace w)) SshBackend) args])
               (self w))
    | Raise e => (Raise e, w)
    end.
Proof.
  intros Hl. unfold connect. cbn [setattrs]. rewrite bind_run. cbn [mret M_ret].
  rewrite bind_run, container_linked_run, Hl.
  rewrite bind_run. pose proof (reader_ssh_session_args w) as Hr.
  destruct (ssh_session_args w) as [[args|e] w1]; cbn in Hr; subst w1; [|done].
  cbn [fst]. rewrite bind_run, make_session_run.
  by destruct (make_session_error E args).
Qed.

(** ** The session getter *)

Lemma session_get_cached w v :
  self w !! "_session" = Some v → is_None v = false →
  session_get E w = (Ok v, w).
Proof.
  intros Hs Hv. unfold session_get. rewrite bind_run, load_run.
  by rewrite (lookup_attr_Some _ _ _ Hs), Hv.
Qed.

Lemma non_ssh_container_true w cls fields ports :
  self w !! "_cont_inst" = Some (VObj cls fields) →
  field_get fields "ports" = Some (VDict ports) →
  truthy (default VNone (assoc_get ports (VInt 22))) = false →
  non_ssh_container w = (Ok true, w).
Proof.
  intros Hc Hp H22. unfold non_ssh_container.
  rewrite bind_run. cbn [hasattr]. rewrite (lookup_attr_Some _ _ _ Hc).
  rewrite bind_run, load_run, (lookup_attr_Some _ _ _ Hc).
  cbn [obj_getattr]. rewrite Hp, bind_run. cbn [lift dict_get].
  destruct (assoc_get ports (VInt 22)) as [p|]; cbn [default from_option id] in H22;
    rewrite bind_run; cbn [lift mret M_ret]; by rewrite H22.
Qed.

Lemma non_ssh_container_false_port w cls fields ports :
  self w !! "_cont_inst" = Some (VObj cls fields) →
  field_get fields "ports" = Some (VDict ports) →
  truthy (default VNone (assoc_get ports (VInt 22))) = true →
  non_ssh_container w = (Ok false, w).
Proof.
  intros Hc Hp H22. unfold non_ssh_container.
  rewrite bind_run. cbn [hasattr]. rewrite (lookup_attr_Some _ _ _ Hc).
  rewrite bind_run, load_run, (lookup_attr_Some _ _ _ Hc).
  cbn [obj_getattr]. rewrite Hp, bind_run. cbn [lift dict_get].
  destruct (assoc_get ports (VInt 22)) as [p|]; cbn [default from_option id] in H22;
    rewrite bind_run; cbn [lift mret M_ret]; by rewrite H22.
Qed.

Lemma non_ssh_container_false_unlinked w :
  self w !! "_cont_inst" = None → non_ssh_container w = (Ok false, w).
Proof.
  intros Hc. unfold non_ssh_container. rewrite bind_run. cbn [hasattr].
  by rewrite lookup_attr_instance, Hc.
Qed.

Lemma session_get_container w cls fields client :
  self w !! "_session" = Some VNone →
  non_ssh_container w = (Ok true, w) →
  self w !! "_cont_inst" = Some (VObj cls fields) →
  field_get fields "client" = Some client →
  let s := Session (length (trace w)) ContainerBackend in
  session_get E w =
    (Ok (VSession s),
     World (SETTINGS_VALIDATED w)
           (trace w ++ [EvContainerSession s (VStr (runtime_of E client)) None])
           (<["_session" := VSession s]> (self w))).
Proof.
  intros Hs Hn Hc Hcl s. unfold session_get.
  rewrite bind_run, load_run, (lookup_attr_Some _ _ _ Hs). cbn [is_None].
  rewrite bind_run, Hn, bind_run, bind_run, load_run, (lookup_attr_Some _ _ _ Hc).
  cbn [obj_getattr]. rewrite Hcl, bind_run. cbn [lift].
  rewrite bind_run, ContainerSession_run. cbn [store].
  rewrite load_run. cbn [self]. unfold lookup_attr. by rewrite lookup_insert_eq.
Qed.

Lemma session_get_delegates w :
  self w !! "_session" = Some VNone →
  non_ssh_container w = (Ok false, w) →
  session_get E w = (connect E [] ;; load "_session") w.
Proof.
  intros Hs Hn. unfold session_get.
  rewrite bind_run, load_run, (lookup_attr_Some _ _ _ Hs). cbn [is_None].
  by rewrite bind_run, Hn.
Qed.

(** A session that the getter returns was cached or is a new
    container-backed one. *)
Lemma session_get_Ok w v w1 :
  session_get E w = (Ok v, w1) →
  (w1 = w ∧ self w !! "_session" = Some v ∧ is_None v = false)
  ∨ (∃ s runtime,
       v = VSession s ∧ sess_backend s = ContainerBackend
       ∧ self w !! "_session" = Some VNone
       ∧ w1 = World (SETTINGS_VALIDATED w)
                    (trace w ++ [EvContainerSession s runtime None])
                    (<["_session" := VSession s]> (self w))).
Proof.
  unfold session_get. rewrite bind_run, load_run.
  rewrite lookup_attr_instance by done.
  destruct (self w !! "_session") as [v0|] eqn:Hs; [|done].
  destruct (is_None v0) eqn:Hv0.
  - destruct v0; try done. clear Hv0.
    rewrite bind_run. pose proof (reader_non_ssh_container w) as Hr.
    destruct (non_ssh_container w) as [[[]|e] w0]; cbn in Hr; subst w0; [| |done].
    + rewrite bind_run, bind_run, load_run.
      destruct (lookup_attr (self w) "_cont_inst") as [ci|]; [|done].
      rewrite bind_run. cbn [lift].
      destruct (obj_getattr ci "client") as [client|]; [|done].
      rewrite bind_run, ContainerSession_run. cbn [store].
      rewrite load_run. cbn [self]. unfold lookup_attr.
      rewrite lookup_insert_eq. intros [= <- <-]. right. by eexists _, _.
    + rewrite bind_run. destruct (connect_nil_run w) as (e & evs & -> & _). done.
  - intros [= <- <-]. by left.
Qed.

(** ** Closing and executing *)

Lemma close_run_session w s :
  self w !! "_session" = Some (VSession s) →
  close E w =
    match session_disconnect E (trace w) s with
    | Some e =>
        (Raise e,
         World (SETTINGS_VALIDATED w) (trace w ++ [EvDisconnect s]) (self w))
    | None =>
        (Ok tt,
         World (SETTINGS_VALIDATED w) (trace w ++ [EvDisconnect s])
               (<["_session" := VNone]> (self w)))
    end.
Proof.
  intros Hs. unfold close.
  rewrite bind_run, load_run, (lookup_attr_Some _ _ _ Hs). cbn [is_None].
  rewrite bind_run. unfold call_disconnect. rewrite !bind_run. cbn.
  by destruct (session_disconnect E (trace w) s).
Qed.

Lemma close_run_None w :
  self w !! "_session" = Some VNone → close E w = (Ok tt, w).
Proof.
  intros Hs. unfold close.
  rewrite bind_run, load_run, (lookup_attr_Some _ _ _ Hs). cbn [is_None].
  rewrite bind_run. cbn [mret M_ret]. unfold store.
  by rewrite (insert_id _ _ _ Hs), world_eta.
Qed.

Lemma call_run_run s command timeout w :
  call_run E (VSession s) command timeout w =
    (session_run E (trace w) s command timeout,
     World (SETTINGS_VALIDATED w) (trace w ++ [EvRun s command timeout]) (self w)).
Proof. reflexivity. Qed.

Lemma execute_run w command timeout s w1 hostname dt :
  self w !! "hostname" = Some hostname →
  lookup_attr (self w) "default_timeout" = Some dt →
  session_get E w = (Ok (VSession s), w1) →
  let t := if is_None timeout then dt else timeout in
  execute E command timeout w =
    (session_run E (trace w1) s command t,
     World (SETTINGS_VALIDATED w1) (trace w1 ++ [EvRun s command t]) (self w1)).
Proof.
  intros Hh Hd Hs t. unfold execute. rewrite bind_run.
  assert ((if is_None timeout then load "default_timeout" else mret timeout) w
          = (Ok t, w)) as ->.
  { subst t. destruct (is_None timeout); [|done]. by rewrite load_run, Hd. }
  rewrite bind_run, load_run, (lookup_attr_Some _ _ _ Hh).
  rewrite bind_run, Hs, bind_run, call_run_run.
  assert (self w1 !! "hostname" = Some hostname) as Hh1.
  { destruct (session_get_Ok _ _ _ Hs) as [(-> & _)|(s' & r & _ & _ & _ & ->)];
      [done|]. cbn [self]. by rewrite lookup_insert_ne. }
  destruct (session_run E (trace w1) s command t) as [res|e]; [|done].
  rewrite bind_run, load_run. cbn [self].
  by rewrite (lookup_attr_Some _ _ _ Hh1).
Qed.

(** ** Serialisation *)

Lemma to_dict_run w :
  to_dict w =
    match self w !! "_prov_inst" with
    | None => (Raise (AttributeError "_prov_inst"), w)
    | Some prov_inst =>
        match obj_getattr prov_inst "instance" with
        | Raise e => (Raise e, w)
        | Ok instance =>
            (Ok (filter (fun kv => kv.1 ∈ keep_keys) (self w) ∪
                 {[ "name" := default VNone (self w !! "name");
                    "_broker_provider_instance" := instance;
                    "type" := VStr "host" ]}), w)
        end
    end.
Proof.
  unfold to_dict. rewrite bind_run. cbn [getattr_default].
  rewrite bind_run, load_run, !lookup_attr_instance by done.
  destruct (self w !! "_prov_inst") as [p|]; [|done].
  rewrite bind_run. cbn [lift]. by destruct (obj_getattr p "instance").
Qed.

Lemma has_provider_link_false d :
  has_provider_link d = false →
  match d !! "_prov_inst" with
  | None => True
  | Some p => ∃ e, obj_getattr p "instance" = Raise e
  end.
Proof.
  unfold has_provider_link. rewrite lookup_attr_instance by done.
  destruct (d !! "_prov_inst") as [[]|]; cbn; eauto.
  destruct (field_get _ _); [done|eauto].
Qed.

Lemma to_dict_keys w d w1 k :
  to_dict w = (Ok d, w1) → is_Some (d !! k) → k ∈ allow_list.
Proof.
  rewrite to_dict_run.
  destruct (self w !! "_prov_inst") as [p|]; [|done].
  destruct (obj_getattr p "instance") as [i|]; [|done].
  intros [= <- <-] [v Hv]. apply lookup_union_Some_raw in Hv as [Hv|[_ Hv]].
  - apply map_lookup_filter_Some in Hv as [_ Hk]. cbn in Hk.
    unfold allow_list. apply elem_of_app. by right.
  - unfold allow_list. apply elem_of_app. left.
    destruct (decide (k = "name")) as [->|]; [by_decide|].
    destruct (decide (k = "_broker_provider_instance")) as [->|]; [by_decide|].
    destruct (decide (k = "type")) as [->|]; [by_decide|].
    by rewrite !lookup_insert_ne, lookup_singleton_ne in Hv.
Qed.

Lemma to_dict_lookup_kept w d w1 k :
  to_dict w = (Ok d, w1) → k ∈ keep_keys → d !! k = self w !! k.
Proof.
  rewrite to_dict_run.
  destruct (self w !! "_prov_inst") as [p|]; [|done].
  destruct (obj_getattr p "instance") as [i|]; [|done].
  intros [= <- <-] Hk. rewrite lookup_union, map_lookup_filter.
  assert (({[ "name" := default VNone (self w !! "name");
              "_broker_provider_instance" := i;
              "type" := VStr "host" ]} : gmap string value) !! k = None) as ->.
  { rewrite !lookup_insert_ne, lookup_singleton_ne; [done|..];
      intros <-; revert Hk; by_decide. }
  destruct (self w !! k) as [v|]; [|done]. cbn.
  by rewrite option_guard_True.
Qed.

Lemma to_dict_lookup_name w d w1 :
  to_dict w = (Ok d, w1) → d !! "name" = Some (default VNone (self w !! "name")).
Proof.
  rewrite to_dict_run.
  destruct (self w !! "_prov_inst") as [p|]; [|done].
  destruct (obj_getattr p "instance") as [i|]; [|done].
  intros [= <- <-]. rewrite lookup_union, map_lookup_filter.
  rewrite lookup_insert_eq.
  destruct (self w !! "name") as [v|]; cbn; [|done].
  rewrite option_guard_False; [done|by_decide].
Qed.

Lemma to_dict_world w d w1 : to_dict w = (Ok d, w1) → w1 = w.
Proof.
  rewrite to_dict_run.
  destruct (self w !! "_prov_inst") as [p|]; [|done].
  destruct (obj_getattr p "instance") as [i|]; [|done]. by intros [= <- <-].
Qed.

Lemma from_dict_run stack arg_dict w :
  arg_dict !! "from_dict" = None →
  arg_dict !! "self" = None →
  from_dict E stack arg_dict w =
    new_Host E ("from_dict" :: stack) (<["from_dict" := VBool true]> arg_dict) w.
Proof. intros H1 H2. unfold from_dict. by rewrite H1, H2. Qed.

Lemma identity_insert_from_dict (kwargs : gmap string value) v :
  identity (<["from_dict" := v]> kwargs) = identity kwargs.
Proof. unfold identity, kwargs_get. by rewrite !lookup_insert_ne. Qed.

End Facts.

(** * The properties of the specification *)

Lemma truthy_identity kwargs :
  truthy (identity kwargs) =
    truthy (kwargs_get kwargs "hostname") || truthy (kwargs_get kwargs "ip").
Proof.
  unfold identity, py_or.
  by destruct (truthy (kwargs_get kwargs "hostname")) eqn:H.
Qed.

Lemma obj_getattr_Raise o k e : obj_getattr o k = Raise e → e = AttributeError k.
Proof.
  destruct o; cbn; try by intros [= <-].
  destruct (field_get _ _); [done|by intros [= <-]].
Qed.

Lemma lookup_default_timeout d :
  lookup_attr d "default_timeout" = Some (configured_default_timeout d).
Proof.
  unfold lookup_attr, configured_default_timeout.
  by destruct (d !! "default_timeout").
Qed.

(** Claim C9.  In a process whose settings pass validation, a sequence of
    Host constructions that starts with the validated flag unset runs the
    settings validation exactly once: the first construction runs it and
    sets the flag, the whole sequence adds one validation to the trace
    whatever the outcome of each construction, and a construction that finds
    the flag set makes no call at all. *)
Theorem C9_validation_runs_once (E : Env) first calls w :
  validate_SSH E = None →
  SETTINGS_VALIDATED w = false →
  let w1 := (new_Host E first.1 first.2 w).2 in
  validations (trace w1) = S (validations (trace w))
  ∧ SETTINGS_VALIDATED w1 = true
  ∧ validations (trace (construct_all E (first :: calls) w)) = S (validations (trace w))
  ∧ (∀ stack kwargs w',
       SETTINGS_VALIDATED w' = true →
       trace (new_Host E stack kwargs w').2 = trace w').
Proof.
  destruct first as [stack kwargs]. cbn [fst snd construct_all]. intros Hv Hw.
  set (w1 := (new_Host E stack kwargs w).2).
  assert (validations (trace w1) = S (validations (trace w))) as H1.
  { subst w1. rewrite new_Host_trace, Hw, validations_app. cbn. lia. }
  assert (SETTINGS_VALIDATED w1 = true) as H2 by by apply new_Host_validates.
  split_and!; [done|done| |].
  - destruct (construct_all_validated E calls w1 H2) as [_ ->]. done.
  - intros stack' kwargs' w' Hw'. rewrite new_Host_trace, Hw'. apply app_nil_r.
Qed.

(** A run of C9: the hypotheses hold for concrete hosts. *)
Lemma C9_validation_runs_once_witness :
  validations (trace (construct_all example_env
     [([], kwargs_h1); ([], ∅); (["reconstruct_host"], ∅); ([], kwargs_provided)]
     fresh_process)) = 1%nat.
Proof.
  exact (proj1 (proj2 (proj2
    (C9_validation_runs_once example_env ([], kwargs_h1)
       [([], ∅); (["reconstruct_host"], ∅); ([], kwargs_provided)]
       fresh_process eq_refl eq_refl)))).
Defined.


(** Claim C3, as stated, fails: [from_dict] on a record without hostname and
    ip, called from a function [checkin], does not return a host: it
    raises. *)
Lemma C3_from_dict_rejects_record :
  truthy (kwargs_get record_without_identity "hostname") = false
  ∧ truthy (kwargs_get record_without_identity "ip") = false
  ∧ (from_dict example_env ["checkin"] record_without_identity fresh_process).1 =
      Raise (AttributeError "hostname").
Proof. vm_compute. repeat split; reflexivity. Qed.

(** Claim C3, amended.  With the validation gate passed, [from_dict] on a
    record without the keys [self] and [from_dict] is the constructor
    applied to the entries of the record and [from_dict=True].  For such a
    record without hostname and ip the identity check is the constructor's
    own: without a frame of [reconstruct_host] on the call stack the call
    raises and returns no host; with one it returns a host without session
    that carries [from_dict = True] as an ordinary attribute. *)
Theorem C3_from_dict_identity (E : Env) stack record w :
  SETTINGS_VALIDATED w = true ∨ validate_SSH E = None →
  record !! "from_dict" = None →
  record !! "self" = None →
  truthy (kwargs_get record "hostname") = false →
  truthy (kwargs_get record "ip") = false →
  from_dict E stack record w =
    new_Host E ("from_dict" :: stack) (<["from_dict" := VBool true]> record) w
  ∧ (has_frame "reconstruct_host" stack = false →
     ∃ e, (from_dict E stack record w).1 = Raise e)
  ∧ (has_frame "reconstruct_host" stack = true →
     (from_dict E stack record w).1 = Ok tt
     ∧ self (from_dict E stack record w).2 !! "from_dict" = Some (VBool true)
     ∧ self (from_dict E stack record w).2 !! "_session" = Some VNone).
Proof.
  intros Hv Hr Hself Hh Hi. rewrite from_dict_run by done. split; [done|].
  rewrite new_Host_run, identity_insert_from_dict, truthy_identity, Hh, Hi.
  assert ((if SETTINGS_VALIDATED w then None else validate_SSH E) = None) as ->.
  { destruct Hv as [-> | ->]; [done|by destruct (SETTINGS_VALIDATED w)]. }
  cbn [orb has_frame existsb].
  change ("reconstruct_host" =? "from_dict")%string with false. cbn [orb].
  fold (has_frame "reconstruct_host" stack).
  split; intros ->; [by eexists|]. cbn [fst snd self].
  split_and!; [done| |apply init_dict_session].
  rewrite init_dict_extension by by_decide. apply lookup_insert_eq.
Qed.

(** A run of C3: the hypotheses hold for concrete hosts. *)
Lemma C3_from_dict_identity_witness :
  (∃ e, (from_dict example_env ["checkin"] record_without_identity
           fresh_process).1 = Raise e)
  ∧ (from_dict example_env ["checkin"; "reconstruct_host"]
       record_without_identity fresh_process).1 = Ok tt.
Proof.
  split.
  - apply (C3_from_dict_identity example_env ["checkin"]
             record_without_identity fresh_process); [right|..]; by_compute.
  - apply (C3_from_dict_identity example_env ["checkin"; "reconstruct_host"]
             record_without_identity fresh_process); [right|..]; by_compute.
Defined.

(** Claim C5, as stated, fails: a host constructed without identity inside
    [reconstruct_host] serialises to [reconstructed_record], and [from_dict]
    on that record, called from a function [checkin], does not return a
    host: it raises. *)
Lemma C5_round_trip_rejected :
  (to_dict reconstructed_host).1 = Ok reconstructed_record
  ∧ (from_dict example_env ["checkin"] reconstructed_record reconstructed_host).1 =
      Raise (AttributeError "hostname").
Proof. vm_compute. repeat split; reflexivity. Qed.

(** Claim C5, amended.  Every key of a record that [to_dict] returns lies in
    the allow-list.  If moreover the host has a [hostname] attribute, and its
    hostname or its ip is truthy or the round trip runs under
    [reconstruct_host], then [from_dict] on the record returns a host with
    the same [hostname] and the same [name] (the one that [to_dict] read,
    [None] when the attribute is missing). *)
Theorem C5_to_dict_round_trip (E : Env) stack w d w1 hostname :
  to_dict w = (Ok d, w1) →
  (∀ k, is_Some (d !! k) → k ∈ allow_list)
  ∧ (self w !! "hostname" = Some hostname →
     SETTINGS_VALIDATED w = true ∨ validate_SSH E = None →
     truthy hostname = true
     ∨ truthy (default VNone (self w !! "ip")) = true
     ∨ has_frame "reconstruct_host" stack = true →
     ∃ w2,
       from_dict E stack d w1 = (Ok tt, w2)
       ∧ self w2 !! "hostname" = Some hostname
       ∧ self w2 !! "name" = Some (default VNone (self w !! "name"))).
Proof.
  intros Hd. split; [intros k; by apply (to_dict_keys w d w1)|].
  intros Hh Hv Hid.
  assert (d !! "from_dict" = None) as Hfd.
  { destruct (d !! "from_dict") eqn:Hk; [|done].
    assert ("from_dict" ∈ allow_list) as Hin by (apply (to_dict_keys w d w1); eauto).
    revert Hin. by_decide. }
  assert (d !! "self" = None) as Hsf.
  { destruct (d !! "self") eqn:Hk; [|done].
    assert ("self" ∈ allow_list) as Hin by (apply (to_dict_keys w d w1); eauto).
    revert Hin. by_decide. }
  pose proof (to_dict_lookup_kept w d w1 "hostname" Hd ltac:(by_decide)) as Hdh.
  pose proof (to_dict_lookup_kept w d w1 "ip" Hd ltac:(by_decide)) as Hdi.
  pose proof (to_dict_lookup_name w d w1 Hd) as Hdn.
  apply to_dict_world in Hd as ->.
  rewrite from_dict_run, new_Host_run, identity_insert_from_dict by done.
  assert ((if SETTINGS_VALIDATED w then None else validate_SSH E) = None) as ->.
  { destruct Hv as [-> | ->]; [done|by destruct (SETTINGS_VALIDATED w)]. }
  assert (truthy (identity d)
          || has_frame "reconstruct_host" ("from_dict" :: stack) = true) as ->.
  { rewrite truthy_identity. unfold kwargs_get. rewrite Hdh, Hdi, Hh.
    cbn [default from_option id has_frame existsb].
    change ("reconstruct_host" =? "from_dict")%string with false. cbn [orb].
    fold (has_frame "reconstruct_host" stack).
    destruct Hid as [-> | [-> | ->]]; [done|..]; by rewrite !orb_true_r. }
  eexists. split; [reflexivity|]. cbn [self]. split.
  - rewrite init_dict_hostname, lookup_insert_ne by done. by rewrite Hdh, Hh.
  - rewrite init_dict_name, lookup_insert_ne by done. by rewrite Hdn.
Qed.

(** A run of C5: the hypotheses hold for concrete hosts. *)
Lemma C5_to_dict_round_trip_witness :
  (∀ k, is_Some (provided_record !! k) → k ∈ allow_list)
  ∧ ∃ w2,
      from_dict example_env ["checkin"] provided_record (host_of kwargs_provided)
        = (Ok tt, w2)
      ∧ self w2 !! "hostname" = Some (VStr "h1")
      ∧ self w2 !! "name" = Some (VStr "n1").
Proof.
  assert (to_dict (host_of kwargs_provided)
          = (Ok provided_record, host_of kwargs_provided)) as Hd
    by by_compute.
  destruct (C5_to_dict_round_trip example_env ["checkin"] _ _ _ (VStr "h1") Hd)
    as [Hkeys Hround].
  split; [exact Hkeys|].
  apply Hround; [by_compute|left; by_compute|left; by_compute].
Defined.

(** Claim C10.  [to_dict] on a host without provider link (no [_prov_inst],
    or one without [instance]) raises [AttributeError] and changes nothing.
    In particular a host that [from_dict] builds from a record of [to_dict]
    has no [_prov_inst], so that serialising it again raises. *)
Theorem C10_to_dict_needs_provider_link (E : Env) w :
  (has_provider_link (self w) = false →
   ∃ attr, to_dict w = (Raise (AttributeError attr), w))
  ∧ (∀ stack d w1 w2,
       to_dict w = (Ok d, w1) →
       from_dict E stack d w1 = (Ok tt, w2) →
       has_provider_link (self w2) = false
       ∧ to_dict w2 = (Raise (AttributeError "_prov_inst"), w2)).
Proof.
  split.
  - intros Hl. apply has_provider_link_false in Hl. rewrite to_dict_run.
    destruct (self w !! "_prov_inst") as [p|]; [|by eexists].
    destruct Hl as [e He]. rewrite He.
    apply obj_getattr_Raise in He as ->. by eexists.
  - intros stack d w1 w2 Hd Hf.
    assert (∀ k, k ∉ allow_list → d !! k = None) as Hnot.
    { intros k Hk. destruct (d !! k) eqn:Hdk; [|done].
      destruct Hk. apply (to_dict_keys w d w1); eauto. }
    rewrite from_dict_run, new_Host_run in Hf by (apply Hnot; by_decide).
    destruct (if SETTINGS_VALIDATED w1 then None else validate_SSH E); [done|].
    cbn zeta in Hf. destruct (_ || _); [|done]. injection Hf as <-.
    assert (init_dict E (<["from_dict" := VBool true]> d) ∅ !! "_prov_inst" = None)
      as Hp.
    { rewrite init_dict_extension by by_decide.
      rewrite lookup_insert_ne by done. apply Hnot. by_decide. }
    split.
    + unfold has_provider_link. rewrite lookup_attr_instance by done.
      cbn [self]. by rewrite Hp.
    + rewrite to_dict_run. cbn [self]. by rewrite Hp.
Qed.

(** A run of C10: the hypotheses hold for concrete hosts. *)
Lemma C10_to_dict_needs_provider_link_witness :
  (∃ attr, to_dict (host_of ∅) = (Raise (AttributeError attr), host_of ∅))
  ∧ has_provider_link (self round_trip_host) = false
  ∧ to_dict round_trip_host =
      (Raise (AttributeError "_prov_inst"), round_trip_host).
Proof.
  split.
  - apply (C10_to_dict_needs_provider_link example_env (host_of ∅)). by_compute.
  - apply (proj2 (C10_to_dict_needs_provider_link example_env
                    (host_of kwargs_provided))
             ["checkin"] provided_record (host_of kwargs_provided)
             round_trip_host);
      by_compute.
Defined.

(** Claim C6.  On a host with an attached session whose [disconnect]
    returns, [close] calls [disconnect] once (the trace grows by that one
    call), leaves [_session] at [None] and returns; a second [close] then
    changes nothing and returns.  On a host whose [_session] is [None],
    [close] changes nothing and returns. *)
Theorem C6_close_disconnects_once (E : Env) w :
  (∀ s,
     self w !! "_session" = Some (VSession s) →
     session_disconnect E (trace w) s = None →
     let w1 := World (SETTINGS_VALIDATED w) (trace w ++ [EvDisconnect s])
                     (<["_session" := VNone]> (self w)) in
     close E w = (Ok tt, w1) ∧ close E w1 = (Ok tt, w1))
  ∧ (self w !! "_session" = Some VNone → close E w = (Ok tt, w)).
Proof.
  split.
  - intros s Hs Hd w1. split.
    + by rewrite (close_run_session E w s Hs), Hd.
    + apply close_run_None. apply lookup_insert_eq.
  - apply close_run_None.
Qed.

(** A run of C6: the hypotheses hold for concrete hosts. *)
Lemma C6_close_disconnects_once_witness :
  (close example_env host_with_session =
     (Ok tt, closed_host)
   ∧ close example_env closed_host = (Ok tt, closed_host))
  ∧ close example_env (host_of ∅) = (Ok tt, host_of ∅).
Proof.
  split.
  - apply (proj1 (C6_close_disconnects_once example_env host_with_session)
             attached_session); by_compute.
  - apply (C6_close_disconnects_once example_env (host_of ∅)). by_compute.
Defined.

(** Claim C8, evaluated on [Host(hostname="h1", _settings={},
    DEFAULT_USER="root")]: [execute("echo ok")] and
    [execute("echo ok", timeout=30)] raise [AttributeError] in the session
    getter, at the assignment of [connect] to the property [session], and
    [run] is not called: no timeout reaches it. *)
Theorem C8_execute_never_reaches_run :
  (execute example_env "echo ok" VNone connectable_host).1 =
    Raise (AttributeError "session")
  ∧ has_run (trace (execute example_env "echo ok" VNone connectable_host).2) =
      false
  ∧ (execute example_env "echo ok" (VInt 30) connectable_host).1 =
      Raise (AttributeError "session")
  ∧ has_run
      (trace (execute example_env "echo ok" (VInt 30) connectable_host).2) =
      false.
Proof. vm_compute. repeat split; reflexivity. Qed.

(** Claim C7, as stated, fails: a container host that maps port 22 is in the
    case where the getter delegates to [connect], and [connect] calls the
    container-backed constructor, not [make_session]. *)
Lemma C7_ssh_enabled_container_gets_container_backend :
  non_ssh_container ssh_enabled_container_host =
    (Ok false, ssh_enabled_container_host)
  ∧ self ssh_enabled_container_host !! "_session" = Some VNone
  ∧ trace (session_get example_env ssh_enabled_container_host).2 =
      [EvValidate;
       EvContainerSession (Session 1 ContainerBackend) VNone (Some (VDict []))].
Proof. vm_compute. repeat split; reflexivity. Qed.

(** Claim C7, amended.  On a host without session: if the linked container
    instance maps no port 22, the getter constructs a container-backed
    session (runtime podman or docker, by the client), attaches it and
    returns it, and [make_session] is not called.  If the host has no linked
    container instance, or one that maps port 22, the getter is [connect()]
    followed by a read of [_session], and [connect()] calls at most one
    session constructor: when [is_container] or [_cont_inst] is truthy, the
    container-backed one (with runtime [None]) if the host has a [_settings]
    attribute and none if it has not, never [make_session]; when neither is
    truthy, [make_session] if its arguments evaluate and none if they do
    not, never the container-backed one. *)
Theorem C7_session_backend_selection (E : Env) w :
  self w !! "_session" = Some VNone →
  (∀ cls fields ports client,
     self w !! "_cont_inst" = Some (VObj cls fields) →
     field_get fields "ports" = Some (VDict ports) →
     field_get fields "client" = Some client →
     truthy (default VNone (assoc_get ports (VInt 22))) = false →
     let s := Session (length (trace w)) ContainerBackend in
     session_get E w =
       (Ok (VSession s),
        World (SETTINGS_VALIDATED w)
              (trace w ++ [EvContainerSession s (VStr (runtime_of E client)) None])
              (<["_session" := VSession s]> (self w))))
  ∧ (self w !! "_cont_inst" = None
     ∨ (∃ cls fields ports,
          self w !! "_cont_inst" = Some (VObj cls fields)
          ∧ field_get fields "ports" = Some (VDict ports)
          ∧ truthy (default VNone (assoc_get ports (VInt 22))) = true) →
     session_get E w = (connect E [] ;; load "_session") w
     ∧ (is_container_linked (self w) = true →
        (∀ settings_obj,
           self w !! "_settings" = Some settings_obj →
           trace (connect E [] w).2 =
             trace w ++
             [EvContainerSession (Session (length (trace w)) ContainerBackend)
                VNone (Some settings_obj)])
        ∧ (self w !! "_settings" = None → trace (connect E [] w).2 = trace w))
     ∧ (is_container_linked (self w) = false →
        (∀ args,
           (ssh_session_args w).1 = Ok args →
           trace (connect E [] w).2 =
             trace w ++
             [EvMakeSession (Session (length (trace w)) SshBackend) args])
        ∧ (∀ e, (ssh_session_args w).1 = Raise e →
                trace (connect E [] w).2 = trace w))).
Proof.
  intros Hs. split.
  - intros cls fields ports client Hc Hp Hcl H22 s.
    eapply session_get_container; eauto using non_ssh_container_true.
  - intros Hcase. split_and!.
    + apply session_get_delegates; [done|].
      destruct Hcase as [Hc|(cls & fields & ports & Hc & Hp & H22)];
        eauto using non_ssh_container_false_unlinked,
          non_ssh_container_false_port.
    + intros Hl. rewrite (connect_nil_linked E w Hl). split.
      * by intros so ->.
      * by intros ->.
    + intros Hl. rewrite (connect_nil_unlinked E w Hl). split.
      * by intros args ->.
      * by intros e ->.
Qed.

(** A run of C7: the hypotheses hold for concrete hosts. *)
Lemma C7_session_backend_selection_witness :
  session_get example_env non_ssh_container_host =
    (Ok (VSession (Session (length (trace non_ssh_container_host)) ContainerBackend)),
     World (SETTINGS_VALIDATED non_ssh_container_host)
       (trace non_ssh_container_host ++
        [EvContainerSession
           (Session (length (trace non_ssh_container_host)) ContainerBackend)
           (VStr (runtime_of example_env (VObj "PodmanClient" []))) None])
       (<["_session" :=
            VSession (Session (length (trace non_ssh_container_host))
                              ContainerBackend)]>
          (self non_ssh_container_host)))
  ∧ (session_get example_env ssh_enabled_container_host =
       (connect example_env [] ;; load "_session") ssh_enabled_container_host
     ∧ trace (connect example_env [] ssh_enabled_container_host).2 =
         trace ssh_enabled_container_host ++
         [EvContainerSession
            (Session (length (trace ssh_enabled_container_host)) ContainerBackend)
            VNone (Some (VDict []))])
  ∧ trace (connect example_env [] (host_of ∅)).2 = trace (host_of ∅).
Proof.
  assert (self non_ssh_container_host !! "_session" = Some VNone) as H1
    by by_compute.
  assert (self ssh_enabled_container_host !! "_session" = Some VNone) as H2
    by by_compute.
  assert (self (host_of ∅) !! "_session" = Some VNone) as H3 by by_compute.
  split_and!.
  - apply (proj1 (C7_session_backend_selection example_env
                    non_ssh_container_host H1)
             "Container"
             [("ports", VDict []); ("client", VObj "PodmanClient" [])]
             [] (VObj "PodmanClient" [])); by_compute.
  - apply (proj2 (C7_session_backend_selection example_env
                    ssh_enabled_container_host H2)).
    right. exists "Container",
      [("ports", VDict [(VInt 22, VInt 2222)]);
       ("client", VObj "PodmanClient" [])],
      [(VInt 22, VInt 2222)].
    split_and!; by_compute.
  - assert (self ssh_enabled_container_host !! "_cont_inst" =
            Some container_with_ssh) as Hc by by_compute.
    destruct (proj2 (C7_session_backend_selection example_env
                       ssh_enabled_container_host H2)) as (_ & Hl & _).
    { right. exists "Container",
        [("ports", VDict [(VInt 22, VInt 2222)]);
         ("client", VObj "PodmanClient" [])],
        [(VInt 22, VInt 2222)].
      split_and!; by_compute. }
    apply Hl; by_compute.
  - destruct (proj2 (C7_session_backend_selection example_env (host_of ∅) H3))
      as (_ & _ & Hu).
    { left. by_compute. }
    apply (proj2 (Hu ltac:(by_compute)) (AttributeError "_settings")).
    by_compute.
Defined.

(** Claim C1, evaluated on [Host(hostname="h1", _settings={},
    DEFAULT_USER="root")]: the construction returns and leaves [_session] at
    [None]; [connect()] then raises [AttributeError] at the assignment to the
    property [session], which has no setter, and [_session] is still [None];
    so does [execute("echo ok")]. *)
Theorem C1_connect_leaves_session_None :
  (new_Host example_env [] kwargs_connectable fresh_process).1 = Ok tt
  ∧ self connectable_host !! "_session" = Some VNone
  ∧ (connect example_env [] connectable_host).1 = Raise (AttributeError "session")
  ∧ self (connect example_env [] connectable_host).2 !! "_session" = Some VNone
  ∧ (execute example_env "echo ok" VNone connectable_host).1 =
      Raise (AttributeError "session")
  ∧ self (execute example_env "echo ok" VNone connectable_host).2 !! "_session" =
      Some VNone.
Proof. vm_compute. repeat split; reflexivity. Qed.

(** Claim C4, evaluated on a host with an attached session to a machine
    that has [yum] and neither [dnf] nor [zypper]: the lookup of [yum]
    prints its path, and [_pkg_mgr] returns [dnf], the first candidate whose
    lookup printed that it is missing. *)
Theorem C4_pkg_mgr_returns_missing_manager :
  session_run example_env [] attached_session "which yum" (VInt 0) =
    Ok (VStr "/usr/bin/yum")
  ∧ (_pkg_mgr example_env host_with_session).1 = Ok (VStr "dnf").
Proof. vm_compute. repeat split; reflexivity. Qed.

(** * Further properties of the code *)

Section MoreFacts.
Context (E : Env).

(** A construction that returns leaves the dictionary [init_dict]. *)
Lemma new_Host_Ok stack kwargs w :
  (new_Host E stack kwargs w).1 = Ok tt →
  (new_Host E stack kwargs w).2 =
    World true (trace w ++ gate_events (SETTINGS_VALIDATED w))
          (init_dict E kwargs ∅).
Proof.
  rewrite new_Host_run.
  destruct (if SETTINGS_VALIDATED w then None else validate_SSH E); [done|].
  cbn zeta. by destruct (_ || _).
Qed.

(** A construction that raises leaves an instance without [_session]. *)
Lemma new_Host_Raise stack kwargs w e :
  (new_Host E stack kwargs w).1 = Raise e →
  self (new_Host E stack kwargs w).2 !! "_session" = None.
Proof.
  rewrite new_Host_run.
  destruct (if SETTINGS_VALIDATED w then None else validate_SSH E); [done|].
  cbn zeta. destruct (_ || _); [done|]. intros _. cbn [snd self].
  by rewrite lookup_singleton_ne.
Qed.

Lemma popped_lookup_popped (kwargs : gmap string value) k :
  k ∈ popped_keys →
  foldl (fun m k => delete k m) kwargs popped_keys !! k = None.
Proof.
  unfold popped_keys. cbn [foldl]. intros Hk.
  repeat (apply elem_of_cons in Hk as [->|Hk];
          [by rewrite ?lookup_delete_ne, ?lookup_delete_eq by done|]).
  by apply elem_of_nil in Hk.
Qed.

(** The options that the constructor pops keep the value given, or the
    default of the settings. *)
Lemma init_dict_options kwargs base :
  let h := init_dict E kwargs base in
  h !! "username" =
    Some (default (settings_SSH E "HOST_USERNAME") (kwargs !! "username"))
  ∧ h !! "password" =
      Some (default (settings_SSH E "HOST_PASSWORD") (kwargs !! "password"))
  ∧ h !! "port" = Some (default (settings_SSH E "HOST_SSH_PORT") (kwargs !! "port"))
  ∧ h !! "key_filename" =
      Some (default (settings_SSH E "HOST_SSH_KEY_FILENAME")
                    (kwargs !! "key_filename"))
  ∧ h !! "ipv6" = Some (default (settings_SSH E "HOST_IPV6") (kwargs !! "ipv6"))
  ∧ h !! "ipv4_fallback" =
      Some (default (settings_SSH E "HOST_IPV4_FALLBACK")
                    (kwargs !! "ipv4_fallback")).
Proof.
  cbn zeta. unfold init_dict.
  split_and!;
    (rewrite lookup_insert_ne by done;
     rewrite lookup_union, popped_lookup_popped by by_decide;
     rewrite ?lookup_insert_ne by done; by rewrite lookup_insert_eq).
Qed.

Lemma init_dict_timeout kwargs base :
  init_dict E kwargs base !! "timeout" =
    Some (default (default (settings_SSH E "HOST_CONNECTION_TIMEOUT")
                           (kwargs !! "connection_timeout"))
                  (kwargs !! "timeout")).
Proof.
  unfold init_dict. rewrite lookup_insert_ne by done.
  rewrite lookup_union, popped_lookup_ne by by_decide.
  rewrite !lookup_insert_ne by done. rewrite lookup_insert_eq.
  by destruct (kwargs !! "timeout").
Qed.

(** A keyword that the constructor does not pop becomes an attribute. *)
Lemma init_dict_verbatim kwargs base k v :
  k ∉ popped_keys → k ≠ "_session" → kwargs !! k = Some v →
  init_dict E kwargs base !! k = Some v.
Proof.
  intros Hp Hs Hk. unfold init_dict. rewrite lookup_insert_ne by done.
  rewrite lookup_union, popped_lookup_ne, Hk by done.
  apply union_Some_l.
Qed.

Lemma init_dict_connection_timeout kwargs :
  init_dict E kwargs ∅ !! "connection_timeout" = None.
Proof.
  unfold init_dict. rewrite lookup_insert_ne by done.
  rewrite lookup_union, popped_lookup_popped by by_decide.
  by rewrite !lookup_insert_ne, lookup_empty by done.
Qed.

(** The getter changes nothing but [_session] and the trace, whatever its
    outcome. *)
Lemma session_get_frame w k :
  k ≠ "_session" →
  self (session_get E w).2 !! k = self w !! k
  ∧ SETTINGS_VALIDATED (session_get E w).2 = SETTINGS_VALIDATED w.
Proof.
  intros Hk. unfold session_get. rewrite bind_run, load_run.
  destruct (lookup_attr (self w) "_session") as [v0|]; [|done].
  destruct (is_None v0); [|done].
  rewrite bind_run. pose proof (reader_non_ssh_container w) as Hr.
  destruct (non_ssh_container w) as [[[]|e] w0]; cbn in Hr; subst w0; [| |done].
  - rewrite bind_run, bind_run, load_run.
    destruct (lookup_attr (self w) "_cont_inst") as [ci|]; [|done].
    rewrite bind_run. cbn [lift].
    destruct (obj_getattr ci "client") as [client|]; [|done].
    rewrite bind_run, ContainerSession_run. cbn [store].
    rewrite load_run. cbn [self]. unfold lookup_attr.
    rewrite lookup_insert_eq. cbn [snd self SETTINGS_VALIDATED].
    by rewrite lookup_insert_ne.
  - rewrite bind_run. destruct (connect_nil_run E w) as (e & evs & -> & _).
    done.
Qed.

Lemma has_provider_link_true d :
  has_provider_link d = true →
  ∃ p i, d !! "_prov_inst" = Some p ∧ obj_getattr p "instance" = Ok i.
Proof.
  unfold has_provider_link. rewrite lookup_attr_instance by done.
  destruct (d !! "_prov_inst") as [[]|]; cbn; try done.
  destruct (field_get _ _) eqn:Hf; [|done]. intros _.
  eexists _, _. split; [done|]. cbn. by rewrite Hf.
Qed.

Lemma keep_keys_not_popped k :
  k ∈ keep_keys → (k ∉ popped_keys) ∧ k ≠ "_session".
Proof.
  unfold keep_keys. intros Hk.
  repeat (apply elem_of_cons in Hk as [->|Hk]; [split; [by_decide|done]|]).
  by apply elem_of_nil in Hk.
Qed.

Lemma keep_keys_not_core k :
  k ∈ keep_keys → k ≠ "hostname" → k ∉ core_attrs.
Proof.
  unfold keep_keys. intros Hk Hh.
  repeat (apply elem_of_cons in Hk as [->|Hk]; [try done; by_decide|]).
  by apply elem_of_nil in Hk.
Qed.

End MoreFacts.

(** X1.  A construction that returns resolves each recognised option as the
    explicit keyword, or else the default of the settings: [name] (default
    [None]), [username], [password], [port], [key_filename], [ipv6] and
    [ipv4_fallback]; the attribute [timeout] is the keyword [timeout] if
    given, else the keyword [connection_timeout], else the default. *)
Theorem constructor_options_resolved (E : Env) stack kwargs w :
  (new_Host E stack kwargs w).1 = Ok tt →
  let h := self (new_Host E stack kwargs w).2 in
  h !! "name" = Some (default VNone (kwargs !! "name"))
  ∧ h !! "username" =
      Some (default (settings_SSH E "HOST_USERNAME") (kwargs !! "username"))
  ∧ h !! "password" =
      Some (default (settings_SSH E "HOST_PASSWORD") (kwargs !! "password"))
  ∧ h !! "port" = Some (default (settings_SSH E "HOST_SSH_PORT") (kwargs !! "port"))
  ∧ h !! "key_filename" =
      Some (default (settings_SSH E "HOST_SSH_KEY_FILENAME")
                    (kwargs !! "key_filename"))
  ∧ h !! "ipv6" = Some (default (settings_SSH E "HOST_IPV6") (kwargs !! "ipv6"))
  ∧ h !! "ipv4_fallback" =
      Some (default (settings_SSH E "HOST_IPV4_FALLBACK")
                    (kwargs !! "ipv4_fallback"))
  ∧ h !! "timeout" =
      Some (default (default (settings_SSH E "HOST_CONNECTION_TIMEOUT")
                             (kwargs !! "connection_timeout"))
                    (kwargs !! "timeout")).
Proof.
  intros Hok. rewrite (new_Host_Ok E _ _ _ Hok). cbn [self].
  split; [apply init_dict_name|].
  pose proof (init_dict_options E kwargs ∅) as (?&?&?&?&?&?).
  split_and!; try done. apply init_dict_timeout.
Qed.

(** A run of [constructor_options_resolved] on a concrete host. *)
Lemma constructor_options_resolved_witness :
  (self (new_Host example_env [] kwargs_ip fresh_process).2 !! "username" =
     Some (default (settings_SSH example_env "HOST_USERNAME")
                   (kwargs_ip !! "username")))
  ∧ self (new_Host example_env [] kwargs_ip fresh_process).2 !! "timeout" =
      Some (default (default (settings_SSH example_env "HOST_CONNECTION_TIMEOUT")
                             (kwargs_ip !! "connection_timeout"))
                    (kwargs_ip !! "timeout")).
Proof.
  assert ((new_Host example_env [] kwargs_ip fresh_process).1 = Ok tt) as Hok
    by by_compute.
  pose proof (constructor_options_resolved example_env [] kwargs_ip
                fresh_process Hok) as (_ & H1 & _ & _ & _ & _ & _ & H2).
  split; [exact H1|exact H2].
Defined.

(** X2.  A construction that returns attaches every keyword that it does not
    pop, except [_session], as an attribute with the value given; the
    instance has no attribute beyond those the constructor sets itself and
    the keywords; and [connection_timeout] is never an attribute. *)
Theorem constructor_keeps_extension_keywords (E : Env) stack kwargs w :
  (new_Host E stack kwargs w).1 = Ok tt →
  let h := self (new_Host E stack kwargs w).2 in
  (∀ k v, k ∉ popped_keys → k ≠ "_session" → kwargs !! k = Some v →
          h !! k = Some v)
  ∧ (∀ k v, h !! k = Some v → k ∈ core_attrs ∨ kwargs !! k = Some v)
  ∧ h !! "connection_timeout" = None.
Proof.
  intros Hok. rewrite (new_Host_Ok E _ _ _ Hok). cbn [self].
  split_and!.
  - intros k v. apply init_dict_verbatim.
  - intros k v Hk. destruct (decide (k ∈ core_attrs)) as [|Hc]; [by left|right].
    destruct (decide (k ∈ popped_keys)) as [Hp|Hp].
    + exfalso. unfold popped_keys in Hp.
      repeat (apply elem_of_cons in Hp as [->|Hp];
              [first [by (apply Hc; by_decide)
                     | by rewrite init_dict_connection_timeout in Hk]|]).
      by apply elem_of_nil in Hp.
    + by rewrite init_dict_extension in Hk.
  - apply init_dict_connection_timeout.
Qed.

(** A run of [constructor_keeps_extension_keywords] on a concrete host. *)
Lemma constructor_keeps_extension_keywords_witness :
  self (new_Host example_env [] kwargs_ip fresh_process).2 !! "job_id" =
    Some (VInt 17)
  ∧ self (new_Host example_env [] kwargs_ip fresh_process).2
      !! "connection_timeout" = None.
Proof.
  assert ((new_Host example_env [] kwargs_ip fresh_process).1 = Ok tt) as Hok
    by by_compute.
  pose proof (constructor_keeps_extension_keywords example_env [] kwargs_ip
                fresh_process Hok) as (H1 & _ & H2).
  split; [|exact H2].
  apply H1; [by_decide|done|by_compute].
Defined.

(** X3.  A construction without [hostname] keyword and with a truthy [ip]
    returns (the validation gate passed), and the host's [hostname] and [ip]
    are both that ip. *)
Theorem constructor_hostname_falls_back_to_ip (E : Env) stack kwargs w ip :
  SETTINGS_VALIDATED w = true ∨ validate_SSH E = None →
  kwargs !! "hostname" = None →
  kwargs !! "ip" = Some ip →
  truthy ip = true →
  (new_Host E stack kwargs w).1 = Ok tt
  ∧ self (new_Host E stack kwargs w).2 !! "hostname" = Some ip
  ∧ self (new_Host E stack kwargs w).2 !! "ip" = Some ip.
Proof.
  intros Hv Hh Hi Ht.
  assert (identity kwargs = ip) as Hid.
  { unfold identity, kwargs_get, py_or. by rewrite Hh, Hi. }
  assert ((new_Host E stack kwargs w).1 = Ok tt) as Hok.
  { rewrite new_Host_run, Hid, Ht.
    by destruct Hv as [-> | ->]; [|destruct (SETTINGS_VALIDATED w)]. }
  split; [done|]. rewrite (new_Host_Ok E _ _ _ Hok). cbn [self]. split.
  - by rewrite init_dict_hostname, Hh, Hid.
  - apply init_dict_verbatim; [by_decide|done|done].
Qed.

(** A run of [constructor_hostname_falls_back_to_ip] on a concrete host. *)
Lemma constructor_hostname_falls_back_to_ip_witness :
  (new_Host example_env [] kwargs_ip fresh_process).1 = Ok tt
  ∧ self (new_Host example_env [] kwargs_ip fresh_process).2 !! "hostname" =
      Some (VStr "10.0.0.7")
  ∧ self (new_Host example_env [] kwargs_ip fresh_process).2 !! "ip" =
      Some (VStr "10.0.0.7").
Proof.
  apply (constructor_hostname_falls_back_to_ip example_env [] kwargs_ip
           fresh_process (VStr "10.0.0.7")); [right|..]; by_compute.
Defined.

(** X4.  While the settings fail validation, every construction raises the
    validation error, the validated flag stays unset, and each of a sequence
    of constructions runs the validation again. *)
Theorem failed_validation_is_retried (E : Env) e calls w :
  validate_SSH E = Some e →
  SETTINGS_VALIDATED w = false →
  (∀ stack kwargs, (new_Host E stack kwargs w).1 = Raise e)
  ∧ SETTINGS_VALIDATED (construct_all E calls w) = false
  ∧ validations (trace (construct_all E calls w)) =
      (validations (trace w) + length calls)%nat.
Proof.
  intros Hv Hw0. split.
  - intros stack kwargs. by rewrite new_Host_run, Hw0, Hv.
  - revert w Hw0. induction calls as [|[stack kwargs] calls IH]; intros w Hw.
    + cbn. split; [done|lia].
    + cbn [construct_all length].
      assert ((new_Host E stack kwargs w).2 =
              World false (trace w ++ [EvValidate]) ∅) as ->.
      { by rewrite new_Host_run, Hw, Hv. }
      destruct (IH (World false (trace w ++ [EvValidate]) ∅) eq_refl) as [-> ->].
      split; [done|]. cbn [trace]. rewrite validations_app. cbn. lia.
Qed.

(** A run of [failed_validation_is_retried] on a concrete host. *)
Lemma failed_validation_is_retried_witness :
  (∀ stack kwargs,
     (new_Host invalid_settings_env stack kwargs fresh_process).1 =
       Raise (ExternalError "ValidationError"))
  ∧ SETTINGS_VALIDATED
      (construct_all invalid_settings_env [([], kwargs_h1); ([], kwargs_ip)]
         fresh_process) = false
  ∧ validations
      (trace (construct_all invalid_settings_env
                [([], kwargs_h1); ([], kwargs_ip)] fresh_process)) =
      (validations (trace fresh_process)
       + length [([] : list string, kwargs_h1); ([], kwargs_ip)])%nat.
Proof.
  apply (failed_validation_is_retried invalid_settings_env
           (ExternalError "ValidationError")
           [([], kwargs_h1); ([], kwargs_ip)] fresh_process); reflexivity.
Defined.

(** X5.  A construction calls no collaborator but the settings validation
    of the gate: it opens no session.  When it returns, [_session] is
    [None], also when a keyword [_session] was passed. *)
Theorem constructor_opens_no_session (E : Env) stack kwargs w :
  trace (new_Host E stack kwargs w).2 =
    trace w ++ gate_events (SETTINGS_VALIDATED w)
  ∧ ((new_Host E stack kwargs w).1 = Ok tt →
     self (new_Host E stack kwargs w).2 !! "_session" = Some VNone).
Proof.
  split; [apply new_Host_trace|].
  intros Hok. rewrite (new_Host_Ok E _ _ _ Hok). apply init_dict_session.
Qed.

(** A run of [constructor_opens_no_session] on a concrete host. *)
Lemma constructor_opens_no_session_witness :
  trace (new_Host example_env [] kwargs_ip fresh_process).2 =
    trace fresh_process ++ gate_events (SETTINGS_VALIDATED fresh_process)
  ∧ self (new_Host example_env [] kwargs_ip fresh_process).2 !! "_session" =
      Some VNone.
Proof.
  destruct (constructor_opens_no_session example_env [] kwargs_ip fresh_process)
    as [H1 H2].
  split; [exact H1|]. apply H2. by_compute.
Defined.

(** X6.  The finalizer [__del__] is safe: on the instance that a failed
    construction leaves (it has no [_session] attribute) and on a host whose
    [_session] is [None] it changes nothing and returns; on a host with a
    session it is [close]. *)
Theorem finalizer_is_safe (E : Env) w :
  (∀ stack kwargs e,
     (new_Host E stack kwargs w).1 = Raise e →
     Host_del E (new_Host E stack kwargs w).2 =
       (Ok tt, (new_Host E stack kwargs w).2))
  ∧ (self w !! "_session" = Some VNone → Host_del E w = (Ok tt, w))
  ∧ (∀ v, self w !! "_session" = Some v → is_None v = false →
          Host_del E w = close E w).
Proof.
  split_and!.
  - intros stack kwargs e He. apply (new_Host_Raise E) in He.
    unfold Host_del. rewrite bind_run. cbn [hasattr].
    by rewrite lookup_attr_instance, He.
  - intros Hs. unfold Host_del. rewrite bind_run. cbn [hasattr].
    rewrite (lookup_attr_Some _ _ _ Hs), bind_run, load_run.
    by rewrite (lookup_attr_Some _ _ _ Hs).
  - intros v Hs Hv. unfold Host_del. rewrite bind_run. cbn [hasattr].
    rewrite (lookup_attr_Some _ _ _ Hs), bind_run, load_run.
    by rewrite (lookup_attr_Some _ _ _ Hs), Hv.
Qed.

(** A run of [finalizer_is_safe] on a concrete host. *)
Lemma finalizer_is_safe_witness :
  Host_del example_env (new_Host example_env [] ∅ fresh_process).2 =
    (Ok tt, (new_Host example_env [] ∅ fresh_process).2)
  ∧ Host_del example_env (host_of ∅) = (Ok tt, host_of ∅)
  ∧ Host_del example_env host_with_session = close example_env host_with_session.
Proof.
  split_and!.
  - apply (proj1 (finalizer_is_safe example_env fresh_process) [] ∅
             (AttributeError "hostname")).
    by_compute.
  - apply (finalizer_is_safe example_env (host_of ∅)). by_compute.
  - apply (proj2 (proj2 (finalizer_is_safe example_env host_with_session))
             (VSession attached_session)); by_compute.
Defined.

(** X7.  Once the session getter has returned a session, reading it again
    returns the same session and changes nothing; an [execute] from there
    calls only [run] on that session and leaves it attached. *)
Theorem session_is_cached (E : Env) w v w1 :
  session_get E w = (Ok v, w1) →
  session_get E w1 = (Ok v, w1)
  ∧ (∀ s command timeout hostname,
       v = VSession s →
       self w !! "hostname" = Some hostname →
       let t := if is_None timeout
                then configured_default_timeout (self w) else timeout in
       let w2 := (execute E command timeout w1).2 in
       trace w2 = trace w1 ++ [EvRun s command t]
       ∧ session_get E w2 = (Ok (VSession s), w2)).
Proof.
  intros Hs.
  assert (self w1 !! "_session" = Some v ∧ is_None v = false
          ∧ ∀ k, k ≠ "_session" → self w1 !! k = self w !! k) as (H1 & Hv & Hfr).
  { destruct (session_get_Ok _ _ _ _ Hs)
      as [(-> & ? & ?)|(s & r & -> & _ & _ & ->)]; [done|].
    cbn [self]. split_and!; [apply lookup_insert_eq|done|].
    intros k Hk. by rewrite lookup_insert_ne. }
  assert (session_get E w1 = (Ok v, w1)) as Hs1 by by apply session_get_cached.
  split; [done|].
  intros s command timeout hostname -> Hh t w2.
  assert (self w1 !! "hostname" = Some hostname) as Hh1 by by rewrite Hfr.
  assert (configured_default_timeout (self w1) =
          configured_default_timeout (self w)) as Hdt.
  { unfold configured_default_timeout. by rewrite Hfr. }
  subst w2. rewrite (execute_run E w1 command timeout s w1 hostname _ Hh1
                       (lookup_default_timeout _) Hs1).
  cbn [snd trace]. rewrite Hdt. split; [done|].
  by apply session_get_cached.
Qed.

(** A run of [session_is_cached] on a concrete host. *)
Lemma session_is_cached_witness :
  session_get example_env (session_get example_env non_ssh_container_host).2 =
    (Ok (VSession (Session 1 ContainerBackend)),
     (session_get example_env non_ssh_container_host).2).
Proof.
  assert (session_get example_env non_ssh_container_host =
          (Ok (VSession (Session 1 ContainerBackend)),
           (session_get example_env non_ssh_container_host).2)) as Hs
    by by_compute.
  exact (proj1 (session_is_cached example_env _ _ _ Hs)).
Defined.

(** X8.  [to_dict] changes neither the host nor the trace, whatever its
    outcome, and it returns a record exactly when the host holds a provider
    link. *)
Theorem to_dict_needs_only_provider_link w :
  (to_dict w).2 = w
  ∧ (has_provider_link (self w) = true ↔ ∃ d, (to_dict w).1 = Ok d).
Proof.
  rewrite to_dict_run. split.
  - destruct (self w !! "_prov_inst") as [p|]; [|done].
    by destruct (obj_getattr p "instance").
  - split.
    + intros (p & i & -> & ->)%has_provider_link_true. by eexists.
    + intros [d Hd]. destruct (has_provider_link (self w)) eqn:Hl; [done|].
      apply has_provider_link_false in Hl.
      destruct (self w !! "_prov_inst") as [p|]; [|done].
      destruct Hl as [e He]. by rewrite He in Hd.
Qed.

(** X9.  A record that [to_dict] returns has [type = "host"], the name of
    the host ([None] when the attribute is missing), the [instance] of the
    provider link as [_broker_provider_instance], and for each key of
    [keep_keys] the host's attribute exactly: the same value when the
    attribute is present, no entry when it is not. *)
Theorem to_dict_record_content w d w1 :
  to_dict w = (Ok d, w1) →
  d !! "type" = Some (VStr "host")
  ∧ d !! "name" = Some (default VNone (self w !! "name"))
  ∧ (∃ prov_inst instance,
       self w !! "_prov_inst" = Some prov_inst
       ∧ obj_getattr prov_inst "instance" = Ok instance
       ∧ d !! "_broker_provider_instance" = Some instance)
  ∧ (∀ k, k ∈ keep_keys → d !! k = self w !! k).
Proof.
  intros Hd.
  assert (∀ k, k ∉ keep_keys →
            filter (λ kv : string * value, kv.1 ∈ keep_keys) (self w) !! k = None)
    as Hnot.
  { intros k Hk. apply map_lookup_filter_None. right. by intros x _ Hin. }
  split_and!.
  - revert Hd. rewrite to_dict_run.
    destruct (self w !! "_prov_inst") as [p|]; [|done].
    destruct (obj_getattr p "instance") as [i|]; [|done].
    intros [= <- <-]. rewrite lookup_union_r by (apply Hnot; by_decide).
    by rewrite !lookup_insert_ne, lookup_singleton_eq.
  - by apply (to_dict_lookup_name w d w1).
  - revert Hd. rewrite to_dict_run.
    destruct (self w !! "_prov_inst") as [p|]; [|done].
    destruct (obj_getattr p "instance") as [i|] eqn:Hi; [|done].
    intros [= <- <-]. exists p, i. split_and!; [done|done|].
    rewrite lookup_union_r by (apply Hnot; by_decide).
    by rewrite lookup_insert_ne, lookup_insert_eq.
  - intros k. by apply (to_dict_lookup_kept w d w1).
Qed.

(** A run of [to_dict_record_content] on a concrete host. *)
Lemma to_dict_record_content_witness :
  provided_record !! "type" = Some (VStr "host")
  ∧ provided_record !! "name" =
      Some (default VNone (self (host_of kwargs_provided) !! "name"))
  ∧ (∃ prov_inst instance,
       self (host_of kwargs_provided) !! "_prov_inst" = Some prov_inst
       ∧ obj_getattr prov_inst "instance" = Ok instance
       ∧ provided_record !! "_broker_provider_instance" = Some instance)
  ∧ (∀ k, k ∈ keep_keys →
          provided_record !! k = self (host_of kwargs_provided) !! k).
Proof.
  apply (to_dict_record_content (host_of kwargs_provided) provided_record
           (host_of kwargs_provided)).
  by_compute.
Defined.

(** X10.  When [from_dict] returns on a record of [to_dict], every entry of
    the record is an attribute of the new host with the same value, and
    every attribute of [keep_keys] other than [hostname] is the same on both
    hosts, present or not. *)
Theorem round_trip_keeps_record_entries (E : Env) stack w d w1 w2 :
  to_dict w = (Ok d, w1) →
  from_dict E stack d w1 = (Ok tt, w2) →
  (∀ k v, d !! k = Some v → self w2 !! k = Some v)
  ∧ (∀ k, k ∈ keep_keys → k ≠ "hostname" → self w2 !! k = self w !! k).
Proof.
  intros Hd Hf.
  assert (∀ k, k ∉ allow_list → d !! k = None) as Hnot.
  { intros k Hk. destruct (d !! k) eqn:Hdk; [|done].
    destruct Hk. apply (to_dict_keys w d w1); eauto. }
  assert (∀ k, k ≠ "from_dict" →
            (<["from_dict" := VBool true]> d : gmap string value) !! k = d !! k)
    as Hins by (intros k Hk; by rewrite lookup_insert_ne).
  rewrite from_dict_run in Hf by (apply Hnot; by_decide).
  assert ((new_Host E ("from_dict" :: stack)
             (<["from_dict" := VBool true]> d) w1).1 = Ok tt) as Hok
    by by rewrite Hf.
  apply (new_Host_Ok E) in Hok. rewrite Hf in Hok. cbn [snd] in Hok.
  subst w2. cbn [self]. split.
  - intros k v Hk.
    assert (k ∈ allow_list) as Hin by (apply (to_dict_keys w d w1); eauto).
    destruct (decide (k = "name")) as [->|Hn].
    { by rewrite init_dict_name, Hins, Hk. }
    destruct (decide (k = "hostname")) as [->|Hh].
    { by rewrite init_dict_hostname, Hins, Hk. }
    apply init_dict_verbatim.
    + intros Hp. unfold allow_list, keep_keys in Hin. cbn [app] in Hin.
      repeat (apply elem_of_cons in Hin as [->|Hin];
              [first [done | revert Hp; by_decide]|]).
      by apply elem_of_nil in Hin.
    + intros ->. revert Hin. by_decide.
    + rewrite Hins; [done|]. intros ->. revert Hin. by_decide.
  - intros k Hk Hh.
    destruct (keep_keys_not_popped k Hk) as [Hp Hs].
    rewrite init_dict_extension by eauto using keep_keys_not_core.
    rewrite Hins by (intros ->; revert Hk; by_decide).
    by apply (to_dict_lookup_kept w d w1).
Qed.

(** A run of [round_trip_keeps_record_entries] on a concrete host. *)
Lemma round_trip_keeps_record_entries_witness :
  (∀ k v, provided_record !! k = Some v → self round_trip_host !! k = Some v)
  ∧ (∀ k, k ∈ keep_keys → k ≠ "hostname" →
          self round_trip_host !! k = self (host_of kwargs_provided) !! k).
Proof.
  apply (round_trip_keeps_record_entries example_env ["checkin"]
           (host_of kwargs_provided) provided_record (host_of kwargs_provided)
           round_trip_host); by_compute.
Defined.

(** X11.  [execute] changes no attribute of the host other than [_session]
    and leaves the validated flag as it is, whatever its outcome. *)
Theorem execute_keeps_configuration (E : Env) w command timeout k :
  k ≠ "_session" →
  self (execute E command timeout w).2 !! k = self w !! k
  ∧ SETTINGS_VALIDATED (execute E command timeout w).2 = SETTINGS_VALIDATED w.
Proof.
  intros Hk. unfold execute. rewrite bind_run.
  assert (∃ r, (if is_None timeout then load "default_timeout" else mret timeout) w
               = (r, w)) as [r ->].
  { destruct (is_None timeout); [|by eexists].
    rewrite load_run. destruct (lookup_attr _ _); by eexists. }
  destruct r as [t|e]; [|done].
  rewrite bind_run. pose proof (reader_load "hostname" w) as Hr.
  destruct (load "hostname" w) as [[hn|e] w0]; cbn in Hr; subst w0; [|done].
  rewrite bind_run.
  destruct (session_get_frame E w k Hk) as [Hself Hflag].
  destruct (session_get E w) as [[v|e] w1]; cbn [snd] in Hself, Hflag;
    [|split; [exact Hself|exact Hflag]].
  rewrite bind_run.
  destruct v; try (split; [exact Hself|exact Hflag]).
  rewrite call_run_run.
  destruct (session_run E (trace w1) s command t) as [res|e];
    [|split; [exact Hself|exact Hflag]].
  cbv beta iota. rewrite bind_run.
  pose proof (reader_load "hostname"
                (World (SETTINGS_VALIDATED w1)
                       (trace w1 ++ [EvRun s command t]) (self w1))) as Hr.
  destruct (load "hostname" _) as [[hn'|e] w2]; cbn in Hr; subst w2;
    (split; [exact Hself|exact Hflag]).
Qed.

(** A run of [execute_keeps_configuration] on a concrete host. *)
Lemma execute_keeps_configuration_witness :
  self (execute example_env "which yum" (VInt 30) host_with_session).2
    !! "default_timeout" = self host_with_session !! "default_timeout"
  ∧ SETTINGS_VALIDATED
      (execute example_env "which yum" (VInt 30) host_with_session).2 =
      SETTINGS_VALIDATED host_with_session.
Proof.
  apply (execute_keeps_configuration example_env host_with_session "which yum"
           (VInt 30) "default_timeout").
  done.
Defined.

(** X12.  When [disconnect] raises, [close] raises the same exception after
    that one call and keeps the session attached; a later [close] whose
    [disconnect] returns then clears it. *)
Theorem failed_close_can_be_retried (E : Env) w s e :
  self w !! "_session" = Some (VSession s) →
  session_disconnect E (trace w) s = Some e →
  let w1 := World (SETTINGS_VALIDATED w) (trace w ++ [EvDisconnect s]) (self w) in
  close E w = (Raise e, w1)
  ∧ (session_disconnect E (trace w1) s = None →
     close E w1 =
       (Ok tt,
        World (SETTINGS_VALIDATED w)
              (trace w ++ [EvDisconnect s] ++ [EvDisconnect s])
              (<["_session" := VNone]> (self w)))).
Proof.
  intros Hs He w1. split.
  - by rewrite (close_run_session E w s Hs), He.
  - intros Hd. rewrite (close_run_session E w1 s Hs), Hd. subst w1.
    cbn [SETTINGS_VALIDATED trace self]. by rewrite <- app_assoc.
Qed.

(** A run of [failed_close_can_be_retried] on a concrete host. *)
Lemma failed_close_can_be_retried_witness :
  close flaky_disconnect_env host_with_session =
    (Raise (ExternalError "transport"),
     World (SETTINGS_VALIDATED host_with_session)
           (trace host_with_session ++ [EvDisconnect attached_session])
           (self host_with_session))
  ∧ close flaky_disconnect_env
      (World (SETTINGS_VALIDATED host_with_session)
             (trace host_with_session ++ [EvDisconnect attached_session])
             (self host_with_session)) =
      (Ok tt,
       World (SETTINGS_VALIDATED host_with_session)
             (trace host_with_session ++
              [EvDisconnect attached_session] ++ [EvDisconnect attached_session])
             (<["_session" := VNone]> (self host_with_session))).
Proof.
  assert (self host_with_session !! "_session" = Some (VSession attached_session))
    as Hs by by_compute.
  assert (session_disconnect flaky_disconnect_env (trace host_with_session)
            attached_session = Some (ExternalError "transport")) as He
    by by_compute.
  destruct (failed_close_can_be_retried flaky_disconnect_env host_with_session
              attached_session (ExternalError "transport") Hs He) as [H1 H2].
  split; [exact H1|]. apply H2. by_compute.
Defined.

(** X13.  On a host whose session getter yields the session [s],
    [execute(command)] calls [s.run] with the host's configured default
    timeout (the class default 0 unless the instance overrides it), and
    [execute(command, timeout=T)] calls it with [T]; the result of [execute]
    is the result of that call, and the configured default timeout is the
    same afterwards. *)
Theorem execute_passes_selected_timeout (E : Env) w command timeout s w1 hostname :
  self w !! "hostname" = Some hostname →
  session_get E w = (Ok (VSession s), w1) →
  let t := if is_None timeout
           then configured_default_timeout (self w) else timeout in
  (execute E command timeout w).1 = session_run E (trace w1) s command t
  ∧ trace (execute E command timeout w).2 = trace w1 ++ [EvRun s command t]
  ∧ configured_default_timeout (self (execute E command timeout w).2) =
      configured_default_timeout (self w)
  ∧ (self w !! "default_timeout" = None →
     configured_default_timeout (self w) = VInt 0).
Proof.
  intros Hh Hs t.
  rewrite (execute_run E w command timeout s w1 hostname _ Hh
             (lookup_default_timeout _) Hs).
  cbn [fst snd trace self]. split_and!; [done|done| |].
  - destruct (session_get_Ok _ _ _ _ Hs) as [(-> & _)|(s' & r & _ & _ & _ & ->)];
      [done|]. cbn [self]. unfold configured_default_timeout.
    by rewrite lookup_insert_ne.
  - unfold configured_default_timeout. by intros ->.
Qed.

(** A run of [execute_passes_selected_timeout] on a container host without
    port 22, whose session the getter builds. *)
Lemma execute_passes_selected_timeout_witness :
  ((execute example_env "which yum" VNone non_ssh_container_host).1 =
     session_run example_env (trace (session_get example_env
                                       non_ssh_container_host).2)
       (Session 1 ContainerBackend) "which yum"
       (configured_default_timeout (self non_ssh_container_host))
   ∧ trace (execute example_env "which yum" VNone non_ssh_container_host).2 =
       trace (session_get example_env non_ssh_container_host).2 ++
       [EvRun (Session 1 ContainerBackend) "which yum"
          (configured_default_timeout (self non_ssh_container_host))])
  ∧ trace (execute example_env "which yum" (VInt 30) non_ssh_container_host).2 =
      trace (session_get example_env non_ssh_container_host).2 ++
      [EvRun (Session 1 ContainerBackend) "which yum" (VInt 30)]
  ∧ configured_default_timeout (self non_ssh_container_host) = VInt 0.
Proof.
  assert (self non_ssh_container_host !! "hostname" = Some (VStr "h1")) as Hh
    by by_compute.
  assert (session_get example_env non_ssh_container_host =
          (Ok (VSession (Session 1 ContainerBackend)),
           (session_get example_env non_ssh_container_host).2)) as Hs
    by by_compute.
  pose proof (execute_passes_selected_timeout example_env non_ssh_container_host
                "which yum" VNone (Session 1 ContainerBackend) _ (VStr "h1")
                Hh Hs) as (H1 & H2 & _ & H4).
  pose proof (execute_passes_selected_timeout example_env non_ssh_container_host
                "which yum" (VInt 30) (Session 1 ContainerBackend) _ (VStr "h1")
                Hh Hs) as (_ & H3 & _).
  split_and!; [exact H1|exact H2|exact H3|apply H4; by_compute].
Defined.

End Hosts.
